(** * analyzer.py: benchmark statistics and salient commits

    A shallow embedding of [src/analyzer.py]: the series statistics
    ([analyze_report_list], [compute_std_deviation]), the salience test
    ([is_salient]), the aggregation of salient commits
    ([find_salient_commits]), the two drivers ([analyze_junit_reports],
    [analyze_jmh_reports]) and the rebinding of the thresholds by the
    command line.

    Numbers.  The measurements ([time_elapsed]) are Python numbers read from
    JSON.  They are modelled by the rationals they denote ([Q]); [-], [/] and
    [>] are the exact operations, so the rounding of binary floating point is
    outside this model.  The standard deviation needs a square root and is a
    real number ([R]); it is only stored, never compared by the program.

    Exceptions.  Python code that can raise returns a [pyresult].  The
    exceptions are those the code raises on numbers in exact arithmetic; what
    binary floating point adds (an overflow inside [statistics.stdev], [int]
    of an infinity or of a NaN) is outside this model. *)

From Stdlib Require Import ZArith QArith Qabs Qreals Reals Lra Lia.
From stdpp Require Import gmap strings list fin_maps.

Local Open Scope Q_scope.

(** ** Exceptions *)

Inductive exn : Type :=
| IndexError          (* list index out of range *)
| ZeroDivisionError   (* float division by zero *)
| StatisticsError.    (* statistics: too few data points *)

Inductive pyresult (A : Type) : Type :=
| Ok (a : A)
| Raise (e : exn).
Arguments Ok {A} a.
Arguments Raise {A} e.

#[global] Instance pyresult_ret : MRet pyresult := fun _ a => Ok a.
#[global] Instance pyresult_bind : MBind pyresult := fun _ _ f m =>
  match m with
  | Ok a => f a
  | Raise e => Raise e
  end.

(** ** The objects of [model.objects]

    The classes are given by the attributes that [analyzer.py] reads and by
    the keyword arguments of the constructors it calls. *)

Module JUnitReport.
Record t : Type := mk { test_name : string; time_elapsed : Q }.
End JUnitReport.

Module JUnitCommitReport.
Record t : Type := mk { commit_id : string; report : JUnitReport.t }.
End JUnitCommitReport.

Module JUnitStatistics.
Record t : Type := mk {
  commit_id : string;
  runtime : Q;
  speedup : Q;
  runtime_delta : Q
}.
End JUnitStatistics.

Module BenchmarkStatistics.
Record t : Type := mk {
  test_name : string;
  std_dev : R;
  delta_threshold : Q;
  speedup_threshold : Q;
  junit_statistics : list JUnitStatistics.t
}.
End BenchmarkStatistics.

(** ** Module-level thresholds

    [DELTA_THRESHOLD] and [SPEEDUP_THRESHOLD] are module globals that the
    command line may rebind before the analysis starts.  Every function that
    reads them takes the current binding as its first argument.  The bindings
    are numbers here; the command line stores the text of its options
    unconverted, and a comparison of a number with text is outside this
    model. *)

Record globals : Type := Globals {
  DELTA_THRESHOLD : Q;
  SPEEDUP_THRESHOLD : Q
}.

(** The bindings at import time: [DELTA_THRESHOLD = 2], [SPEEDUP_THRESHOLD = 2.0]. *)
Definition default_globals : globals :=
  {| DELTA_THRESHOLD := 2; SPEEDUP_THRESHOLD := 2 |}.

(** ** Python primitives *)

(** [int(x)]: truncation towards zero.  [int(x) is not 0] compares the
    identity of small integers, which CPython shares: it is [int(x) != 0]. *)
Definition int (x : Q) : Z := Z.quot (Qnum x) (Z.pos (Qden x)).

(** [x / y] on numbers. *)
Definition truediv (x y : Q) : pyresult Q :=
  if Qeq_bool y 0 then Raise ZeroDivisionError else Ok (x / y).

(** [x > y]. *)
Definition gt (x y : Q) : bool :=
  match y ?= x with Lt => true | _ => false end.

(** [l[i]]. *)
Definition getitem {A : Type} (l : list A) (i : nat) : pyresult A :=
  match l !! i with
  | Some a => Ok a
  | None => Raise IndexError
  end.

(** [range(n)] for a Python integer [n]: empty when [n <= 0]. *)
Definition range (n : Z) : list nat := seq 0 (Z.to_nat n).

(** ** [statistics.stdev]

    Python's standard library, in exact arithmetic.  [stdev] is the square
    root of [variance]; [variance] divides the sum of squares [_ss] by
    [n - 1] and raises [StatisticsError] on fewer than two data points;
    [_ss] takes the squared deviations from the mean and subtracts the
    compensation term [(sum of deviations)^2 / n]. *)

Module statistics.

Definition sum (data : list Q) : Q := foldr Qplus 0 data.

Definition mean (data : list Q) : pyresult Q :=
  match data with
  | [] => Raise StatisticsError
  | _ => Ok (sum data / inject_Z (Z.of_nat (length data)))
  end.

Definition _ss (data : list Q) : pyresult Q :=
  c ← mean data;
  let total := sum (map (fun x => (x - c) * (x - c)) data) in
  let total2 := sum (map (fun x => x - c) data) in
  Ok (total - total2 * total2 / inject_Z (Z.of_nat (length data))).

Definition variance (data : list Q) : pyresult Q :=
  if (length data <? 2)%nat then Raise StatisticsError
  else
    ss ← _ss data;
    Ok (ss / inject_Z (Z.of_nat (length data) - 1)).

Definition stdev (data : list Q) : pyresult R :=
  var ← variance data;
  Ok (sqrt (Q2R var)).

End statistics.

(** ** [compute_std_deviation] *)

Definition compute_std_deviation (reports : list JUnitCommitReport.t) : pyresult R :=
  let runtimes :=
    map (fun report => JUnitReport.time_elapsed (JUnitCommitReport.report report)) reports in
  statistics.stdev runtimes.

(** ** [analyze_report_list] *)

(** One iteration of the loop over [range(list_length - 1)]: the statistic of
    the pair [reports[i]], [reports[i + 1]]. *)
Definition pair_statistics (reports : list JUnitCommitReport.t) (i : nat)
  : pyresult JUnitStatistics.t :=
  r_i ← getitem reports i;
  let current_commit := JUnitCommitReport.commit_id r_i in
  let current_runtime := JUnitReport.time_elapsed (JUnitCommitReport.report r_i) in
  r_next ← getitem reports (i + 1);
  let next_runtime := JUnitReport.time_elapsed (JUnitCommitReport.report r_next) in
  let runtime_delta := current_runtime - next_runtime in
  speedup ← (if negb (Z.eqb (int next_runtime) 0)
             then truediv current_runtime next_runtime
             else Ok 0);
  Ok (JUnitStatistics.mk current_commit current_runtime speedup runtime_delta).

(** The loop, appending to [junit_statistics_list]. *)
Fixpoint statistics_loop (reports : list JUnitCommitReport.t) (indices : list nat)
    (junit_statistics_list : list JUnitStatistics.t)
  : pyresult (list JUnitStatistics.t) :=
  match indices with
  | [] => Ok junit_statistics_list
  | i :: indices' =>
      junit_statistics ← pair_statistics reports i;
      statistics_loop reports indices' (junit_statistics_list ++ [junit_statistics])
  end.

(** The first step, [std_dev = 0.0] unless [list_length >= 2]. *)
Definition series_std_dev (reports : list JUnitCommitReport.t) : pyresult R :=
  let list_length := length reports in
  if (2 <=? list_length)%nat then compute_std_deviation reports else Ok 0%R.

Definition analyze_report_list (g : globals) (reports : list JUnitCommitReport.t)
  : pyresult BenchmarkStatistics.t :=
  let list_length := length reports in
  std_dev ← series_std_dev reports;
  junit_statistics_list ← statistics_loop reports (range (Z.of_nat list_length - 1)) [];
  r_0 ← getitem reports 0;
  let test_name := JUnitReport.test_name (JUnitCommitReport.report r_0) in
  Ok (BenchmarkStatistics.mk test_name std_dev
        (DELTA_THRESHOLD g) (SPEEDUP_THRESHOLD g) junit_statistics_list).

(** ** [is_salient] *)

Definition is_salient (g : globals) (commit_statistics : JUnitStatistics.t) : bool :=
  gt (JUnitStatistics.runtime_delta commit_statistics) (DELTA_THRESHOLD g)
  || gt (JUnitStatistics.speedup commit_statistics) (SPEEDUP_THRESHOLD g).

(** ** [find_salient_commits] *)

(** The values a salience record holds: strings and numbers. *)
Inductive pyval : Type :=
| PStr (s : string)
| PNum (q : Q).

(** [total_entries m]: the number of records in all the lists of [m]. *)
Definition total_entries {A : Type} (m : gmap string (list A)) : nat :=
  map_fold (fun _ records n => (length records + n)%nat) 0%nat m.

Section Aggregator.

(** [utils.unpack] and the keys [const.TEST_NAME] and [const.HEXSHA] are
    not part of [analyzer.py]; the aggregation is defined for any of them.
    [unpack] hands out a dictionary of its own for every call. *)
Variable unpack : JUnitStatistics.t -> gmap string pyval.
Variables TEST_NAME HEXSHA : string.

(** The record of a salient statistic: the unpacked statistic with the
    test name added and the [HEXSHA] entry popped. *)
Definition salience_record (test_name : string)
    (commit_statistics : JUnitStatistics.t) : gmap string pyval :=
  let data := unpack commit_statistics in
  let data := <[TEST_NAME := PStr test_name]> data in
  delete HEXSHA data.

(** The body of the inner loop. *)
Definition record_commit (g : globals) (test_name : string)
    (result : gmap string (list (gmap string pyval)))
    (commit_statistics : JUnitStatistics.t)
  : gmap string (list (gmap string pyval)) :=
  if is_salient g commit_statistics then
    let rev_id := JUnitStatistics.commit_id commit_statistics in
    let data := salience_record test_name commit_statistics in
    match result !! rev_id with
    | Some records => <[rev_id := records ++ [data]]> result
    | None => <[rev_id := [data]]> result
    end
  else result.

(** The body of the outer loop. *)
Definition record_series (g : globals)
    (result : gmap string (list (gmap string pyval)))
    (benchmark_statistics : BenchmarkStatistics.t)
  : gmap string (list (gmap string pyval)) :=
  let test_name := BenchmarkStatistics.test_name benchmark_statistics in
  let commit_statistics_list :=
    BenchmarkStatistics.junit_statistics benchmark_statistics in
  foldl (record_commit g test_name) result commit_statistics_list.

Definition find_salient_commits (g : globals)
    (benchmark_statistics_list : list BenchmarkStatistics.t)
  : gmap string (list (gmap string pyval)) :=
  foldl (record_series g) ∅ benchmark_statistics_list.

(** The records that a series contributes under the key [k]: one for
    each of its salient statistics with commit id [k], in order. *)
Definition records_of (g : globals) (k : string)
    (benchmark_statistics : BenchmarkStatistics.t) : list (gmap string pyval) :=
  map (salience_record (BenchmarkStatistics.test_name benchmark_statistics))
    (filter (fun cs => is_salient g cs = true /\ JUnitStatistics.commit_id cs = k)
       (BenchmarkStatistics.junit_statistics benchmark_statistics)).

End Aggregator.

(** [result.get(k, [])]: the records under the key [k]. *)
Definition entries {A : Type} (m : gmap string (list A)) (k : string) : list A :=
  default [] (m !! k).

(** No key of [m] holds an empty list. *)
Definition nonempty_values {A : Type} (m : gmap string (list A)) : Prop :=
  forall k records, m !! k = Some records -> records <> [].

(** Modelled from the spec: [utils.unpack] and the constants of [const] are
    missing from the sources.  The spec builds the salience record "from the
    statistic's fields (commit id, runtime/score, delta, speedup)" and keeps
    the commit id out of the record, "it is the map key": [unpack] lists the
    four attributes of the statistic under their names, and [HEXSHA] names the
    commit id. *)
Definition spec_unpack (s : JUnitStatistics.t) : gmap string pyval :=
  <["commit_id" := PStr (JUnitStatistics.commit_id s)]>
  (<["runtime" := PNum (JUnitStatistics.runtime s)]>
  (<["speedup" := PNum (JUnitStatistics.speedup s)]>
  (<["runtime_delta" := PNum (JUnitStatistics.runtime_delta s)]> ∅))).

Definition spec_TEST_NAME : string := "test_name".
Definition spec_HEXSHA : string := "commit_id".

(** ** What the spec says, in its own words *)

(** The sample standard deviation: the sum of squared deviations from the
    mean, divided by [n - 1], square-rooted. *)
Definition sample_std_dev (m : list Q) : R :=
  let n := inject_Z (Z.of_nat (length m)) in
  let mean := foldr Qplus 0 m / n in
  sqrt (Q2R (foldr (fun x acc => (x - mean) ^ 2 + acc) 0 m / (n - 1))).

(** The measurement of a report, and the measurements of a series. *)
Definition measurement (r : JUnitCommitReport.t) : Q :=
  JUnitReport.time_elapsed (JUnitCommitReport.report r).

(** The number of salient statistics of a series. *)
Definition salient_count (g : globals) (bs : BenchmarkStatistics.t) : nat :=
  length (filter (fun cs => is_salient g cs = true) (BenchmarkStatistics.junit_statistics bs)).

(** The series of the end-to-end example. *)
Definition example_reports : list JUnitCommitReport.t :=
  [ JUnitCommitReport.mk "c1" (JUnitReport.mk "T" 10);
    JUnitCommitReport.mk "c2" (JUnitReport.mk "T" (95 # 10));
    JUnitCommitReport.mk "c3" (JUnitReport.mk "T" 5) ].

(** The statistic of an adjacent pair, as the loop body computes it. *)
Definition statistic_of (a b : JUnitCommitReport.t) : JUnitStatistics.t :=
  JUnitStatistics.mk
    (JUnitCommitReport.commit_id a)
    (measurement a)
    (if Z.eqb (int (measurement b)) 0 then 0 else measurement a / measurement b)
    (measurement a - measurement b).

(** The statistics of all adjacent pairs of a series, front to back. *)
Fixpoint adjacent_statistics (reports : list JUnitCommitReport.t)
  : list JUnitStatistics.t :=
  match reports with
  | a :: (b :: _) as rest => statistic_of a b :: adjacent_statistics rest
  | _ => []
  end.

(** A series of two sub-second measurements. *)
Definition sub_second_reports : list JUnitCommitReport.t :=
  [ JUnitCommitReport.mk "c1" (JUnitReport.mk "T" (1 # 2));
    JUnitCommitReport.mk "c2" (JUnitReport.mk "T" (1 # 2)) ].

(** A series that stores thresholds of 100 while the module-level ones are
    the defaults; its only statistic has a delta of 3. *)
Definition lenient_statistic : JUnitStatistics.t :=
  JUnitStatistics.mk "c1" 10 (10 # 7) 3.

Definition lenient_series : BenchmarkStatistics.t :=
  BenchmarkStatistics.mk "T" 0%R 100 100 [lenient_statistic].

(** A series as [analyze_report_list] builds it under the default
    thresholds: the stored thresholds are the module-level ones. *)
Definition default_series : BenchmarkStatistics.t :=
  BenchmarkStatistics.mk "T" 0%R 2 2
    [ JUnitStatistics.mk "c1" 10 (20 # 19) (1 # 2);
      JUnitStatistics.mk "c2" (19 # 2) (19 # 10) (9 # 2) ].

(** ** The microbenchmark objects of [model.objects]

    As above, by the attributes that [analyze_jmh_reports] reads and the
    keyword arguments it passes. *)

Module PrimaryMetric.
Record t : Type := mk { score : Q }.
End PrimaryMetric.

Module JmhReport.
Record t : Type := mk { mode : string; primaryMetric : PrimaryMetric.t }.
End JmhReport.

Module JmhCommitReport.
Record t : Type := mk { commit_id : string; jmh_report : JmhReport.t }.
End JmhCommitReport.

Module JmhStatistics.
Record t : Type := mk {
  commit_id : string;
  mode : string;
  score : Q;
  delta : Q
}.
End JmhStatistics.

(** ** Calls to the outside

    The functions that drive an analysis return nothing; what they do is call
    [print] and the functions of [logger].  They are modelled by the calls
    they make, in order, together with the way they end. *)

Inductive event : Type :=
| print (text : string)
| log_benchmark_statistics (test_statistics : BenchmarkStatistics.t) (dest_dir : string)
| log_salient_commits (salient_commits : gmap string (list (gmap string pyval)))
    (dest_dir : string)
| log_jmh_statistics (jmh_statistics_list : list JmhStatistics.t).

(** ** [analyze_jmh_reports]

    The input is [jmh_commit_reports], the list built from the decoded file. *)

(** One iteration of the loop over [range(len(jmh_commit_reports) - 1)]. *)
Definition jmh_pair_statistics (jmh_commit_reports : list JmhCommitReport.t)
    (mode : string) (i : nat) : pyresult JmhStatistics.t :=
  r_i ← getitem jmh_commit_reports i;
  let current_commit := JmhCommitReport.commit_id r_i in
  let current_score :=
    PrimaryMetric.score (JmhReport.primaryMetric (JmhCommitReport.jmh_report r_i)) in
  r_next ← getitem jmh_commit_reports (i + 1);
  let next_score :=
    PrimaryMetric.score (JmhReport.primaryMetric (JmhCommitReport.jmh_report r_next)) in
  let delta := current_score - next_score in
  Ok (JmhStatistics.mk current_commit mode current_score delta).

Fixpoint jmh_statistics_loop (jmh_commit_reports : list JmhCommitReport.t)
    (mode : string) (indices : list nat) (jmh_statistics_list : list JmhStatistics.t)
  : pyresult (list JmhStatistics.t) :=
  match indices with
  | [] => Ok jmh_statistics_list
  | i :: indices' =>
      jmh_statistics ← jmh_pair_statistics jmh_commit_reports mode i;
      jmh_statistics_loop jmh_commit_reports mode indices'
        (jmh_statistics_list ++ [jmh_statistics])
  end.

Definition analyze_jmh_reports (jmh_commit_reports : list JmhCommitReport.t)
  : list event * pyresult unit :=
  match getitem jmh_commit_reports 0 with
  | Raise e => ([], Raise e)
  | Ok r_0 =>
      let mode := JmhReport.mode (JmhCommitReport.jmh_report r_0) in
      match jmh_statistics_loop jmh_commit_reports mode
              (range (Z.of_nat (length jmh_commit_reports) - 1)) [] with
      | Raise e => ([], Raise e)
      | Ok jmh_statistics_list => ([log_jmh_statistics jmh_statistics_list], Ok tt)
      end
  end.

(** ** [analyze_junit_reports]

    The inputs are the directory and, for each file that
    [get_log_file_names] lists, in that order, the list of commit reports
    built from the decoded file. *)

Section Driver.

Variable unpack : JUnitStatistics.t -> gmap string pyval.
Variables TEST_NAME HEXSHA : string.

(** The loop over [filenames], appending to [statistics_list]. *)
Fixpoint analyze_files (g : globals) (path_to_log_dir : string)
    (files : list (list JUnitCommitReport.t))
    (statistics_list : list BenchmarkStatistics.t)
  : list event * pyresult (list BenchmarkStatistics.t) :=
  match files with
  | [] => ([], Ok statistics_list)
  | commit_report_list :: files' =>
      match analyze_report_list g commit_report_list with
      | Raise e => ([], Raise e)
      | Ok test_statistics =>
          let '(events, outcome) :=
            analyze_files g path_to_log_dir files' (statistics_list ++ [test_statistics]) in
          (log_benchmark_statistics test_statistics path_to_log_dir :: events, outcome)
      end
  end.

Definition analyze_junit_reports (g : globals) (path_to_log_dir : string)
    (files : list (list JUnitCommitReport.t))
  : list event * pyresult unit :=
  let complaint :=
    if (length files =? 0)%nat
    then [print (String.append "Error: No log files found in " path_to_log_dir)]
    else [] in
  match analyze_files g path_to_log_dir files [] with
  | (events, Raise e) => (complaint ++ events, Raise e)
  | (events, Ok statistics_list) =>
      let salient_commits :=
        find_salient_commits unpack TEST_NAME HEXSHA g statistics_list in
      (complaint ++ events ++ [log_salient_commits salient_commits path_to_log_dir],
       Ok tt)
  end.

End Driver.

(** ** The command line

    The script section parses [--delta-threshold] and [--speedup-threshold]
    as text ([type=str]) and rebinds the module-level thresholds to what it
    parsed, so a threshold is a number or a text here, and a comparison
    with a text is a [TypeError]. *)

Module cli.

Inductive value : Type :=
| Number (q : Q)
| Text (s : string).

Record globals : Type := Globals {
  DELTA_THRESHOLD : value;
  SPEEDUP_THRESHOLD : value
}.

Record args : Type := Args {
  directory : string;
  delta_threshold : option string;
  speedup_threshold : option string
}.

Inductive outcome (A : Type) : Type :=
| Returns (a : A)
| TypeError.
Arguments Returns {A} a.
Arguments TypeError {A}.

(** The bindings at import time. *)
Definition initial : globals :=
  {| DELTA_THRESHOLD := Number 2; SPEEDUP_THRESHOLD := Number 2 |}.

(** The two assignments guarded by [is not None]. *)
Definition rebind (a : args) : globals :=
  let g := initial in
  let g := match delta_threshold a with
           | Some text => {| DELTA_THRESHOLD := Text text;
                             SPEEDUP_THRESHOLD := SPEEDUP_THRESHOLD g |}
           | None => g
           end in
  match speedup_threshold a with
  | Some text => {| DELTA_THRESHOLD := DELTA_THRESHOLD g;
                    SPEEDUP_THRESHOLD := Text text |}
  | None => g
  end.

(** [x > y] for a number [x]. *)
Definition gt (x : Q) (y : value) : outcome bool :=
  match y with
  | Number q => Returns (match q ?= x with Lt => true | _ => false end)
  | Text _ => TypeError
  end.

(** [is_salient] under these bindings; [or] evaluates its second operand
    only when the first is false. *)
Definition is_salient (g : globals) (commit_statistics : JUnitStatistics.t)
  : outcome bool :=
  match gt (JUnitStatistics.runtime_delta commit_statistics) (DELTA_THRESHOLD g) with
  | TypeError => TypeError
  | Returns true => Returns true
  | Returns false =>
      gt (JUnitStatistics.speedup commit_statistics) (SPEEDUP_THRESHOLD g)
  end.

End cli.

(** The microbenchmark statistic of an adjacent pair. *)
Definition jmh_score (r : JmhCommitReport.t) : Q :=
  PrimaryMetric.score (JmhReport.primaryMetric (JmhCommitReport.jmh_report r)).

Definition jmh_statistic_of (mode : string) (a b : JmhCommitReport.t)
  : JmhStatistics.t :=
  JmhStatistics.mk (JmhCommitReport.commit_id a) mode (jmh_score a)
    (jmh_score a - jmh_score b).

Fixpoint jmh_adjacent_statistics (mode : string) (reports : list JmhCommitReport.t)
  : list JmhStatistics.t :=
  match reports with
  | a :: (b :: _) as rest => jmh_statistic_of mode a b :: jmh_adjacent_statistics mode rest
  | _ => []
  end.

(** Inputs of the examples below. *)
Definition example_jmh_reports : list JmhCommitReport.t :=
  [ JmhCommitReport.mk "c1" (JmhReport.mk "avgt" (PrimaryMetric.mk 10));
    JmhCommitReport.mk "c2" (JmhReport.mk "thrpt" (PrimaryMetric.mk (95 # 10)));
    JmhCommitReport.mk "c3" (JmhReport.mk "avgt" (PrimaryMetric.mk 5)) ].

Definition steady_reports : list JUnitCommitReport.t :=
  [ JUnitCommitReport.mk "c1" (JUnitReport.mk "T" 3);
    JUnitCommitReport.mk "c2" (JUnitReport.mk "U" 3);
    JUnitCommitReport.mk "c3" (JUnitReport.mk "T" 3) ].


(** * Properties *)

(** ** Numbers *)

Lemma gt_spec (x y : Q) : gt x y = true <-> y < x.
Proof.
  unfold gt. rewrite Qlt_alt.
  destruct (y ?= x); split; intros H; congruence.
Qed.

Lemma gt_false (x y : Q) : gt x y = false <-> x <= y.
Proof.
  rewrite <- not_true_iff_false, gt_spec. split.
  - apply Qnot_lt_le.
  - apply Qle_not_lt.
Qed.

(** [int(x)] is [0] exactly on the open interval from [-1] to [1]. *)
Lemma int_zero_iff (x : Q) : int x = 0%Z <-> Qabs x < 1.
Proof.
  unfold int. rewrite Z.quot_small_iff by discriminate.
  destruct x as [n d]. unfold Qlt. cbn.
  rewrite Z.mul_1_r. reflexivity.
Qed.

Lemma int_zero_of_unit_interval (x : Q) : 0 <= x -> x < 1 -> int x = 0%Z.
Proof.
  intros H0 H1. apply int_zero_iff. rewrite Qabs_pos; assumption.
Qed.

Lemma int_nonzero_not_zero (x : Q) : int x <> 0%Z -> ~ x == 0.
Proof.
  intros Hx Hz. apply Hx, int_zero_iff. rewrite Hz. reflexivity.
Qed.

(** The guard of the speedup protects the division. *)
Lemma truediv_guarded (x y : Q) : int y <> 0%Z -> truediv x y = Ok (x / y).
Proof.
  intros Hy. unfold truediv.
  destruct (Qeq_bool y 0) eqn:E; [|reflexivity].
  apply Qeq_bool_iff in E. destruct (int_nonzero_not_zero y Hy E).
Qed.

(** ** The loop of [analyze_report_list] *)

Lemma pair_statistics_ok (reports : list JUnitCommitReport.t) (i : nat) a b :
  reports !! i = Some a -> reports !! (i + 1)%nat = Some b ->
  pair_statistics reports i = Ok (statistic_of a b).
Proof.
  intros Ha Hb. unfold pair_statistics, getitem. rewrite Ha, Hb. cbn.
  unfold statistic_of, measurement.
  destruct (Z.eqb_spec (int (JUnitReport.time_elapsed (JUnitCommitReport.report b))) 0)
    as [E|E]; cbn.
  - reflexivity.
  - rewrite (truediv_guarded _ _ E). reflexivity.
Qed.

Lemma statistics_loop_from (pre rest : list JUnitCommitReport.t)
    (acc : list JUnitStatistics.t) :
  statistics_loop (pre ++ rest) (seq (length pre) (length rest - 1)) acc
  = Ok (acc ++ adjacent_statistics rest).
Proof.
  revert pre acc. induction rest as [|a rest IH]; intros pre acc.
  - cbn. rewrite app_nil_r. reflexivity.
  - destruct rest as [|b rest'].
    + cbn. rewrite app_nil_r. reflexivity.
    + replace (length (a :: b :: rest') - 1)%nat with (S (length (b :: rest') - 1))
        by (cbn [length]; lia).
      cbn [seq statistics_loop adjacent_statistics].
      rewrite (pair_statistics_ok _ _ a b).
      * cbn [mbind pyresult_bind].
        specialize (IH (pre ++ [a]) (acc ++ [statistic_of a b])).
        rewrite length_app, Nat.add_1_r in IH. cbn [length] in IH.
        rewrite <- !app_assoc in IH. exact IH.
      * rewrite lookup_app_r by lia. rewrite Nat.sub_diag. reflexivity.
      * rewrite lookup_app_r by lia.
        replace (length pre + 1 - length pre)%nat with 1%nat by lia. reflexivity.
Qed.

Lemma statistics_loop_range (reports : list JUnitCommitReport.t) :
  statistics_loop reports (range (Z.of_nat (length reports) - 1)) []
  = Ok (adjacent_statistics reports).
Proof.
  unfold range.
  replace (Z.to_nat (Z.of_nat (length reports) - 1)) with (length reports - 1)%nat by lia.
  exact (statistics_loop_from [] reports []).
Qed.

Lemma length_adjacent_statistics (reports : list JUnitCommitReport.t) :
  length (adjacent_statistics reports) = (length reports - 1)%nat.
Proof.
  induction reports as [|a [|b rest] IH]; cbn in *; try reflexivity.
  rewrite IH. lia.
Qed.

Lemma lookup_adjacent_statistics (reports : list JUnitCommitReport.t) (i : nat) a b :
  reports !! i = Some a -> reports !! S i = Some b ->
  adjacent_statistics reports !! i = Some (statistic_of a b).
Proof.
  revert i. induction reports as [|x [|y rest] IH]; intros i Ha Hb.
  - discriminate.
  - destruct i; discriminate.
  - destruct i as [|i].
    + cbn in *. congruence.
    + cbn [adjacent_statistics]. change ((?u :: ?l) !! S i) with (l !! i).
      apply IH; assumption.
Qed.

(** ** The standard deviation *)

Lemma inject_Z_of_nat_S (n : nat) :
  inject_Z (Z.of_nat (S n)) == inject_Z (Z.of_nat n) + 1.
Proof. rewrite Nat2Z.inj_succ. unfold Z.succ. rewrite inject_Z_plus. reflexivity. Qed.

Lemma inject_Z_of_nat_nonzero (n : nat) :
  (1 <= n)%nat -> ~ inject_Z (Z.of_nat n) == 0.
Proof. intros Hn. unfold Qeq. cbn. lia. Qed.

Lemma inject_Z_of_nat_pred_nonzero (n : nat) :
  (2 <= n)%nat -> ~ inject_Z (Z.of_nat n) - 1 == 0.
Proof. intros Hn. unfold Qeq. cbn. lia. Qed.

Lemma sum_deviations (c : Q) (data : list Q) :
  statistics.sum (map (fun x => x - c) data)
  == statistics.sum data - inject_Z (Z.of_nat (length data)) * c.
Proof.
  induction data as [|x data IH].
  - cbn. ring.
  - cbn [map statistics.sum foldr length]. fold (statistics.sum data).
    fold (statistics.sum (map (fun x => x - c) data)).
    rewrite IH, inject_Z_of_nat_S. ring.
Qed.

(** The deviations from the mean sum to zero: the compensation term of
    [_ss] vanishes in exact arithmetic. *)
Lemma sum_deviations_mean (data : list Q) :
  data <> [] ->
  statistics.sum
    (map (fun x => x - statistics.sum data / inject_Z (Z.of_nat (length data))) data)
  == 0.
Proof.
  intros Hne. rewrite sum_deviations.
  assert (Hn : ~ inject_Z (Z.of_nat (length data)) == 0).
  { apply inject_Z_of_nat_nonzero. destruct data; [congruence | cbn; lia]. }
  field. exact Hn.
Qed.

Lemma sum_squares_fold (c : Q) (data : list Q) :
  foldr (fun x acc => (x - c) ^ 2 + acc) 0 data
  == statistics.sum (map (fun x => (x - c) * (x - c)) data).
Proof.
  induction data as [|x data IH].
  - reflexivity.
  - cbn [map statistics.sum foldr]. fold (statistics.sum (map (fun x => (x - c) * (x - c)) data)).
    rewrite IH. ring.
Qed.

(** With two data points or more, [statistics.stdev] returns the sample
    standard deviation. *)
Lemma stdev_sample (data : list Q) :
  (2 <= length data)%nat ->
  statistics.stdev data = Ok (sample_std_dev data).
Proof.
  intros Hlen. unfold statistics.stdev, statistics.variance.
  destruct (Nat.ltb_spec (length data) 2) as [Hlt|_]; [lia|].
  unfold statistics._ss, statistics.mean.
  destruct data as [|x data]; [cbn in Hlen; lia|].
  set (l := x :: data) in *.
  cbn [mbind pyresult_bind]. f_equal. unfold sample_std_dev. f_equal.
  apply Qeq_eqR.
  rewrite sum_squares_fold.
  rewrite (sum_deviations_mean l) by (subst l; discriminate).
  assert (Hn : ~ inject_Z (Z.of_nat (length l)) == 0).
  { apply inject_Z_of_nat_nonzero. lia. }
  assert (Hn1 : ~ inject_Z (Z.of_nat (length l)) - 1 == 0).
  { apply inject_Z_of_nat_pred_nonzero. lia. }
  assert (E : inject_Z (Z.of_nat (length l) - 1) == inject_Z (Z.of_nat (length l)) - 1).
  { unfold Z.sub. rewrite inject_Z_plus. reflexivity. }
  rewrite E. unfold statistics.sum. field. split; assumption.
Qed.

Lemma compute_std_deviation_ok (reports : list JUnitCommitReport.t) :
  (2 <= length reports)%nat ->
  compute_std_deviation reports = Ok (sample_std_dev (map measurement reports)).
Proof.
  intros Hlen. unfold compute_std_deviation.
  rewrite stdev_sample by (rewrite length_map; exact Hlen). reflexivity.
Qed.

(** [analyze_report_list] on a series that is not empty. *)
Lemma analyze_report_list_cons (g : globals) (r : JUnitCommitReport.t)
    (rest : list JUnitCommitReport.t) :
  analyze_report_list g (r :: rest)
  = Ok (BenchmarkStatistics.mk
          (JUnitReport.test_name (JUnitCommitReport.report r))
          (if (2 <=? length (r :: rest))%nat
           then sample_std_dev (map measurement (r :: rest)) else 0%R)
          (DELTA_THRESHOLD g) (SPEEDUP_THRESHOLD g)
          (adjacent_statistics (r :: rest))).
Proof.
  unfold analyze_report_list, series_std_dev.
  rewrite statistics_loop_range.
  destruct (Nat.leb_spec 2 (length (r :: rest))) as [Hlen|Hlen].
  - rewrite (compute_std_deviation_ok _ Hlen). reflexivity.
  - reflexivity.
Qed.

(** ** Salience *)

Lemma is_salient_spec (g : globals) (cs : JUnitStatistics.t) :
  is_salient g cs = true <->
  DELTA_THRESHOLD g < JUnitStatistics.runtime_delta cs
  \/ SPEEDUP_THRESHOLD g < JUnitStatistics.speedup cs.
Proof.
  unfold is_salient. rewrite orb_true_iff, !gt_spec. reflexivity.
Qed.

(** ** The map of salient commits *)

Lemma total_entries_empty {A : Type} : total_entries (∅ : gmap string (list A)) = 0%nat.
Proof. unfold total_entries. apply map_fold_empty. Qed.

Lemma total_entries_insert_fresh {A : Type} (m : gmap string (list A)) k records :
  m !! k = None ->
  total_entries (<[k := records]> m) = (length records + total_entries m)%nat.
Proof.
  intros Hk. unfold total_entries.
  rewrite map_fold_insert_L; [reflexivity | | exact Hk].
  intros; lia.
Qed.

Lemma total_entries_insert_append {A : Type} (m : gmap string (list A)) k records x :
  m !! k = Some records ->
  total_entries (<[k := records ++ [x]]> m) = S (total_entries m).
Proof.
  intros Hk.
  rewrite <- (insert_delete_eq m k (records ++ [x])).
  rewrite total_entries_insert_fresh by apply lookup_delete_eq.
  rewrite <- (insert_id m k records Hk) at 2.
  rewrite <- (insert_delete_eq m k records).
  rewrite total_entries_insert_fresh by apply lookup_delete_eq.
  rewrite length_app. cbn. lia.
Qed.

Lemma elem_of_concat {A : Type} (x : A) (ls : list (list A)) :
  x ∈ concat ls <-> exists l, x ∈ l /\ l ∈ ls.
Proof.
  induction ls as [|l0 ls IH]; cbn.
  - split; [intros H; inversion H | intros (l & _ & H); inversion H].
  - rewrite elem_of_app, IH. split.
    + intros [H | (l & Hx & Hl)].
      * exists l0. split; [exact H | left].
      * exists l. split; [exact Hx | right; exact Hl].
    + intros (l & Hx & Hl). apply elem_of_cons in Hl as [-> | Hl].
      * left; exact Hx.
      * right; exists l; auto.
Qed.

Section AggregatorFacts.

Variable unpack : JUnitStatistics.t -> gmap string pyval.
Variables TEST_NAME HEXSHA : string.
Variable g : globals.

#[local] Abbreviation commit_step := (record_commit unpack TEST_NAME HEXSHA g).
#[local] Abbreviation series_step := (record_series unpack TEST_NAME HEXSHA g).
#[local] Abbreviation find := (find_salient_commits unpack TEST_NAME HEXSHA g).
#[local] Abbreviation record := (salience_record unpack TEST_NAME HEXSHA).
#[local] Abbreviation records := (records_of unpack TEST_NAME HEXSHA g).

Implicit Types (m : gmap string (list (gmap string pyval))).
Implicit Types (cs : JUnitStatistics.t) (bs : BenchmarkStatistics.t).
Implicit Types (k t : string).

Lemma entries_record_commit t m cs k :
  entries (commit_step t m cs) k
  = entries m k ++
    (if decide (is_salient g cs = true /\ JUnitStatistics.commit_id cs = k)
     then [record t cs] else []).
Proof.
  unfold record_commit, entries; cbv zeta.
  destruct (is_salient g cs) eqn:Hs.
  - destruct (decide (JUnitStatistics.commit_id cs = k)) as [<-|Hne].
    + rewrite decide_True by done.
      destruct (m !! JUnitStatistics.commit_id cs) eqn:Hm;
        rewrite lookup_insert_eq; reflexivity.
    + rewrite decide_False by tauto. rewrite app_nil_r.
      destruct (m !! JUnitStatistics.commit_id cs);
        rewrite lookup_insert_ne by done; reflexivity.
  - rewrite decide_False by (intros [? _]; discriminate).
    rewrite app_nil_r. reflexivity.
Qed.

Lemma nonempty_record_commit t m cs :
  nonempty_values m -> nonempty_values (commit_step t m cs).
Proof.
  intros Hm k recs. unfold record_commit; cbv zeta.
  destruct (is_salient g cs); [|apply Hm].
  destruct (m !! JUnitStatistics.commit_id cs) eqn:E;
    rewrite lookup_insert; case_decide; try apply Hm;
    intros [= <-]; try discriminate.
  destruct l; discriminate.
Qed.

Lemma total_record_commit t m cs :
  total_entries (commit_step t m cs)
  = (total_entries m + if is_salient g cs then 1 else 0)%nat.
Proof.
  unfold record_commit; cbv zeta. destruct (is_salient g cs); [|lia].
  destruct (m !! JUnitStatistics.commit_id cs) eqn:E.
  - rewrite (total_entries_insert_append _ _ _ _ E). lia.
  - rewrite (total_entries_insert_fresh _ _ _ E). cbn. lia.
Qed.

Lemma entries_record_series m bs k :
  entries (series_step m bs) k = entries m k ++ records k bs.
Proof.
  unfold record_series, records_of; cbv zeta.
  generalize (BenchmarkStatistics.test_name bs) as t.
  generalize (BenchmarkStatistics.junit_statistics bs) as l.
  intros l t. revert m. induction l as [|cs l IH]; intros m.
  - cbn. rewrite app_nil_r. reflexivity.
  - cbn [foldl]. rewrite IH, entries_record_commit, <- app_assoc. f_equal.
    rewrite filter_cons. case_decide; reflexivity.
Qed.

Lemma nonempty_record_series m bs :
  nonempty_values m -> nonempty_values (series_step m bs).
Proof.
  unfold record_series; cbv zeta.
  generalize (BenchmarkStatistics.junit_statistics bs) as l.
  intros l. revert m. induction l as [|cs l IH]; intros m Hm; [exact Hm|].
  cbn [foldl]. apply IH, nonempty_record_commit, Hm.
Qed.

Lemma total_record_series m bs :
  total_entries (series_step m bs) = (total_entries m + salient_count g bs)%nat.
Proof.
  unfold record_series, salient_count; cbv zeta.
  generalize (BenchmarkStatistics.junit_statistics bs) as l.
  intros l. revert m. induction l as [|cs l IH]; intros m.
  - cbn. lia.
  - cbn [foldl]. rewrite IH, total_record_commit, filter_cons.
    destruct (is_salient g cs) eqn:Hs.
    + rewrite decide_True by done. cbn [length]. lia.
    + rewrite decide_False by congruence. lia.
Qed.

Lemma entries_foldl_series m l k :
  entries (foldl series_step m l) k = entries m k ++ concat (map (records k) l).
Proof.
  revert m. induction l as [|bs l IH]; intros m.
  - cbn. rewrite app_nil_r. reflexivity.
  - cbn [foldl map concat]. rewrite IH, entries_record_series, <- app_assoc.
    reflexivity.
Qed.

Lemma nonempty_foldl_series m l :
  nonempty_values m -> nonempty_values (foldl series_step m l).
Proof.
  revert m. induction l as [|bs l IH]; intros m Hm; [exact Hm|].
  cbn [foldl]. apply IH, nonempty_record_series, Hm.
Qed.

Lemma total_foldl_series m l :
  total_entries (foldl series_step m l)
  = (total_entries m + sum_list (map (salient_count g) l))%nat.
Proof.
  revert m. induction l as [|bs l IH]; intros m.
  - cbn. lia.
  - cbn [foldl]. rewrite IH, total_record_series. cbn. lia.
Qed.

(** The records under a key are those of the salient statistics with that
    commit id, series after series. *)
Lemma entries_find_salient_commits l k :
  entries (find l) k = concat (map (records k) l).
Proof.
  unfold find_salient_commits.
  rewrite entries_foldl_series. unfold entries. rewrite lookup_empty. reflexivity.
Qed.

Lemma nonempty_find_salient_commits l : nonempty_values (find l).
Proof.
  apply nonempty_foldl_series. intros k recs. rewrite lookup_empty. discriminate.
Qed.

Lemma elem_of_records_of k bs d :
  d ∈ records k bs <->
  exists cs, cs ∈ BenchmarkStatistics.junit_statistics bs
    /\ JUnitStatistics.commit_id cs = k
    /\ is_salient g cs = true
    /\ d = record (BenchmarkStatistics.test_name bs) cs.
Proof.
  unfold records_of. rewrite list_elem_of_fmap. split.
  - intros (cs & -> & Hcs). apply list_elem_of_filter in Hcs as [[Hs Hk] Hin].
    exists cs. auto.
  - intros (cs & Hin & Hk & Hs & ->). exists cs. split; [reflexivity|].
    apply list_elem_of_filter. auto.
Qed.

Lemma elem_of_entries_find l k d :
  d ∈ entries (find l) k <->
  exists bs cs, bs ∈ l
    /\ cs ∈ BenchmarkStatistics.junit_statistics bs
    /\ JUnitStatistics.commit_id cs = k
    /\ is_salient g cs = true
    /\ d = record (BenchmarkStatistics.test_name bs) cs.
Proof.
  rewrite entries_find_salient_commits, elem_of_concat. split.
  - intros (recs & Hd & Hrecs). apply list_elem_of_fmap in Hrecs as (bs & -> & Hbs).
    apply elem_of_records_of in Hd as (cs & ?). exists bs, cs. tauto.
  - intros (bs & cs & Hbs & H). exists (records k bs). split.
    + apply elem_of_records_of. exists cs. exact H.
    + apply list_elem_of_fmap. exists bs. auto.
Qed.

End AggregatorFacts.

(** * The claims *)

(** ** Series statistics *)

(** C1, as the code has it: a series of [n >= 1] reports gives [n - 1]
    statistics; statistic [i] carries the commit id of report [i], the delta
    [m[i] - m[i+1]], and the speedup [m[i] / m[i+1]] when [int(m[i+1])] is not
    [0], that is when [|m[i+1]| >= 1], and the speedup [0] otherwise. *)
Theorem analyze_report_list_statistics (g : globals)
    (reports : list JUnitCommitReport.t) :
  (1 <= length reports)%nat ->
  exists bs,
    analyze_report_list g reports = Ok bs
    /\ length (BenchmarkStatistics.junit_statistics bs) = (length reports - 1)%nat
    /\ forall i a b,
         reports !! i = Some a -> reports !! S i = Some b ->
         exists s,
           BenchmarkStatistics.junit_statistics bs !! i = Some s
           /\ JUnitStatistics.commit_id s = JUnitCommitReport.commit_id a
           /\ JUnitStatistics.runtime_delta s = measurement a - measurement b
           /\ (1 <= Qabs (measurement b) ->
               JUnitStatistics.speedup s = measurement a / measurement b)
           /\ (Qabs (measurement b) < 1 -> JUnitStatistics.speedup s = 0).
Proof.
  intros Hlen. destruct reports as [|r rest]; [cbn in Hlen; lia|].
  eexists. split; [apply analyze_report_list_cons|]. cbn [BenchmarkStatistics.junit_statistics].
  split; [apply length_adjacent_statistics|].
  intros i a b Ha Hb. exists (statistic_of a b).
  split; [apply lookup_adjacent_statistics; assumption|].
  unfold statistic_of; cbn.
  repeat split; try reflexivity.
  - intros Hge. destruct (Z.eqb_spec (int (measurement b)) 0) as [E|E]; [|reflexivity].
    apply int_zero_iff in E. destruct (Qlt_not_le _ _ E Hge).
  - intros Hlt. apply int_zero_iff in Hlt. rewrite Hlt. reflexivity.
Qed.

Lemma analyze_report_list_statistics_witness :
  exists bs s,
    analyze_report_list default_globals example_reports = Ok bs
    /\ length (BenchmarkStatistics.junit_statistics bs) = 2%nat
    /\ BenchmarkStatistics.junit_statistics bs !! 1%nat = Some s
    /\ JUnitStatistics.commit_id s = "c2"
    /\ JUnitStatistics.runtime_delta s = (95 # 10) - 5
    /\ JUnitStatistics.speedup s = (95 # 10) / 5.
Proof.
  destruct (analyze_report_list_statistics default_globals example_reports)
    as (bs & Hbs & Hlen & Hstat).
  - cbn. lia.
  - destruct (Hstat 1%nat
                (JUnitCommitReport.mk "c2" (JUnitReport.mk "T" (95 # 10)))
                (JUnitCommitReport.mk "c3" (JUnitReport.mk "T" 5))
                eq_refl eq_refl)
      as (s & Hs & Hid & Hdelta & Hspeed & _).
    exists bs, s. repeat split; try assumption.
    apply Hspeed. discriminate.
Defined.

(** C1 as the spec words it fails on sub-second baselines: for the series
    [0.5, 0.5] the baseline is not [0], yet the speedup is [0] and not
    [0.5 / 0.5]. *)
Lemma analyze_report_list_speedup_counterexample :
  exists bs s a b,
    analyze_report_list default_globals sub_second_reports = Ok bs
    /\ sub_second_reports !! 0%nat = Some a
    /\ sub_second_reports !! 1%nat = Some b
    /\ BenchmarkStatistics.junit_statistics bs !! 0%nat = Some s
    /\ ~ measurement b == 0
    /\ JUnitStatistics.speedup s = 0
    /\ ~ JUnitStatistics.speedup s == measurement a / measurement b.
Proof.
  do 4 eexists. do 4 (split; [reflexivity|]).
  split; [intros H; discriminate H|]. split; [reflexivity|].
  intros H; discriminate H.
Qed.

(** C3: on a series of length 0 the computation fails; the failure is the
    [IndexError] of [reports[0]], and no statistics object is returned. *)
Theorem analyze_report_list_empty (g : globals) :
  analyze_report_list g [] = Raise IndexError
  /\ forall bs, analyze_report_list g [] <> Ok bs.
Proof.
  split; [reflexivity|]. intros bs H. discriminate H.
Qed.

(** C4: with two measurements or more, the standard deviation step returns
    the sample standard deviation of all measurements, and this is the
    [std_dev] of the result; with one measurement or none the step yields
    [0.0] and raises nothing, [statistics.stdev] is not called; with one
    measurement this [0.0] is the [std_dev] of the result. *)
Theorem analyze_report_list_std_dev (g : globals)
    (reports : list JUnitCommitReport.t) :
  ((2 <= length reports)%nat ->
   series_std_dev reports = Ok (sample_std_dev (map measurement reports))
   /\ exists bs, analyze_report_list g reports = Ok bs
        /\ BenchmarkStatistics.std_dev bs = sample_std_dev (map measurement reports))
  /\ ((length reports <= 1)%nat -> series_std_dev reports = Ok 0%R)
  /\ (length reports = 1%nat ->
      exists bs, analyze_report_list g reports = Ok bs
        /\ BenchmarkStatistics.std_dev bs = 0%R).
Proof.
  split; [|split].
  - intros Hlen. split.
    + unfold series_std_dev.
      destruct (Nat.leb_spec 2 (length reports)); [|lia].
      apply compute_std_deviation_ok, Hlen.
    + destruct reports as [|r rest]; [cbn in Hlen; lia|].
      rewrite analyze_report_list_cons. eexists. split; [reflexivity|].
      cbn [BenchmarkStatistics.std_dev].
      destruct (Nat.leb_spec 2 (length (r :: rest))); [reflexivity | lia].
  - intros Hlen. unfold series_std_dev.
    destruct (Nat.leb_spec 2 (length reports)); [lia | reflexivity].
  - intros Hlen. destruct reports as [|r rest]; [discriminate|].
    rewrite analyze_report_list_cons. eexists. split; [reflexivity|].
    cbn [BenchmarkStatistics.std_dev].
    destruct (Nat.leb_spec 2 (length (r :: rest))); [lia | reflexivity].
Qed.

Lemma analyze_report_list_std_dev_witness :
  (series_std_dev example_reports
   = Ok (sample_std_dev (map measurement example_reports))
   /\ exists bs, analyze_report_list default_globals example_reports = Ok bs
        /\ BenchmarkStatistics.std_dev bs
           = sample_std_dev (map measurement example_reports))
  /\ series_std_dev [] = Ok 0%R
  /\ series_std_dev [JUnitCommitReport.mk "c1" (JUnitReport.mk "T" 10)] = Ok 0%R
  /\ (exists bs,
        analyze_report_list default_globals
          [JUnitCommitReport.mk "c1" (JUnitReport.mk "T" 10)] = Ok bs
        /\ BenchmarkStatistics.std_dev bs = 0%R).
Proof.
  split; [|split; [|split]].
  - apply (analyze_report_list_std_dev default_globals example_reports). cbn. lia.
  - apply (analyze_report_list_std_dev default_globals []). cbn. lia.
  - apply (analyze_report_list_std_dev default_globals
             [JUnitCommitReport.mk "c1" (JUnitReport.mk "T" 10)]). cbn. lia.
  - apply (analyze_report_list_std_dev default_globals
             [JUnitCommitReport.mk "c1" (JUnitReport.mk "T" 10)]). reflexivity.
Defined.

(** C9: the guard of the speedup is [int(next_runtime) is not 0].  A baseline
    [r] with [0 <= r < 1] truncates to [0], so the speedup of its pair is [0],
    also when [r] is not [0]; a series of identical measurements [m] with
    [0 < m < 1] has speedup [0] in every pair, where [m / m] would be [1]. *)
Theorem speedup_zero_below_one (g : globals) (reports : list JUnitCommitReport.t) :
  (forall i a b,
     reports !! i = Some a -> reports !! S i = Some b ->
     0 <= measurement b -> measurement b < 1 ->
     exists bs s,
       analyze_report_list g reports = Ok bs
       /\ BenchmarkStatistics.junit_statistics bs !! i = Some s
       /\ JUnitStatistics.speedup s = 0)
  /\ (forall m,
        reports <> [] -> 0 < m -> m < 1 ->
        Forall (fun r => measurement r == m) reports ->
        exists bs,
          analyze_report_list g reports = Ok bs
          /\ Forall (fun s => JUnitStatistics.speedup s = 0
                              /\ ~ JUnitStatistics.speedup s == m / m)
               (BenchmarkStatistics.junit_statistics bs)).
Proof.
  split.
  - intros i a b Ha Hb H0 H1.
    destruct reports as [|r rest]; [discriminate|].
    eexists. exists (statistic_of a b).
    split; [apply analyze_report_list_cons|]. cbn [BenchmarkStatistics.junit_statistics].
    split; [apply lookup_adjacent_statistics; assumption|].
    unfold statistic_of; cbn.
    rewrite (int_zero_of_unit_interval _ H0 H1). reflexivity.
  - intros m Hne Hm0 Hm1 Hall.
    destruct reports as [|r rest]; [congruence|].
    eexists. split; [apply analyze_report_list_cons|]. cbn [BenchmarkStatistics.junit_statistics].
    clear Hne. revert Hall. generalize (r :: rest) as l. clear r rest.
    induction l as [|a [|b l] IH]; intros Hall; try constructor.
    + inversion Hall as [|? ? _ Hrest]; subst. inversion Hrest as [|? ? Hb _]; subst.
      unfold statistic_of; cbn.
      rewrite (int_zero_of_unit_interval (measurement b)).
      * split; [reflexivity|]. intros H. symmetry in H. revert H.
        assert (E : m / m == 1) by (field; intros Hz; rewrite Hz in Hm0;
                                    exact (Qlt_irrefl _ Hm0)).
        rewrite E. discriminate.
      * rewrite Hb. apply Qlt_le_weak, Hm0.
      * rewrite Hb. exact Hm1.
    + apply IH. inversion Hall; assumption.
Qed.

Lemma speedup_zero_below_one_witness :
  (exists bs s,
     analyze_report_list default_globals sub_second_reports = Ok bs
     /\ BenchmarkStatistics.junit_statistics bs !! 0%nat = Some s
     /\ JUnitStatistics.speedup s = 0)
  /\ (exists bs,
        analyze_report_list default_globals sub_second_reports = Ok bs
        /\ Forall (fun s => JUnitStatistics.speedup s = 0
                            /\ ~ JUnitStatistics.speedup s == (1 # 2) / (1 # 2))
             (BenchmarkStatistics.junit_statistics bs)).
Proof.
  split.
  - apply (proj1 (speedup_zero_below_one default_globals sub_second_reports)) with
      (a := JUnitCommitReport.mk "c1" (JUnitReport.mk "T" (1 # 2)))
      (b := JUnitCommitReport.mk "c2" (JUnitReport.mk "T" (1 # 2))).
    + reflexivity.
    + reflexivity.
    + discriminate.
    + reflexivity.
  - apply (proj2 (speedup_zero_below_one default_globals sub_second_reports)).
    + discriminate.
    + reflexivity.
    + reflexivity.
    + repeat constructor.
Defined.

(** ** Salience *)

(** C2: [is_salient] answers true exactly when the delta is strictly above
    the delta threshold or the speedup is strictly above the speedup
    threshold, and false exactly otherwise; it has an answer for every
    statistic, those with delta [0] or speedup [0] included. *)
Theorem is_salient_iff (g : globals) (cs : JUnitStatistics.t) :
  (is_salient g cs = true <->
   DELTA_THRESHOLD g < JUnitStatistics.runtime_delta cs
   \/ SPEEDUP_THRESHOLD g < JUnitStatistics.speedup cs)
  /\ (is_salient g cs = false <->
      JUnitStatistics.runtime_delta cs <= DELTA_THRESHOLD g
      /\ JUnitStatistics.speedup cs <= SPEEDUP_THRESHOLD g).
Proof.
  split; [apply is_salient_spec|].
  unfold is_salient. rewrite orb_false_iff, !gt_false. reflexivity.
Qed.

(** C8: with the speedup at most its threshold, salience is monotone in the
    delta: once salient at [d], salient at every [d' >= d]; and moving the
    delta from at most the threshold to above it turns the answer from false
    to true. *)
Theorem is_salient_monotone_in_delta (g : globals) (c : string) (r sp d d' : Q) :
  sp <= SPEEDUP_THRESHOLD g ->
  d <= d' ->
  (is_salient g (JUnitStatistics.mk c r sp d) = true ->
   is_salient g (JUnitStatistics.mk c r sp d') = true)
  /\ (d <= DELTA_THRESHOLD g -> DELTA_THRESHOLD g < d' ->
      is_salient g (JUnitStatistics.mk c r sp d) = false
      /\ is_salient g (JUnitStatistics.mk c r sp d') = true).
Proof.
  intros Hsp Hd. split.
  - rewrite !is_salient_spec. cbn. intros [H | H].
    + left. eapply Qlt_le_trans; eassumption.
    + right. exact H.
  - intros Hlow Hhigh. split.
    + apply not_true_iff_false. rewrite is_salient_spec. cbn. intros [H | H].
      * exact (Qlt_not_le _ _ H Hlow).
      * exact (Qlt_not_le _ _ H Hsp).
    + apply is_salient_spec. left. exact Hhigh.
Qed.

Lemma is_salient_monotone_in_delta_witness :
  is_salient default_globals (JUnitStatistics.mk "c1" 10 (19 # 10) 1) = false
  /\ is_salient default_globals (JUnitStatistics.mk "c1" 10 (19 # 10) 3) = true.
Proof.
  apply (is_salient_monotone_in_delta default_globals "c1" 10 (19 # 10) 1 3).
  - discriminate.
  - discriminate.
  - discriminate.
  - reflexivity.
Defined.

(** ** Aggregation *)

Lemma is_Some_lookup_entries {A : Type} (m : gmap string (list A)) (k : string) :
  nonempty_values m -> (is_Some (m !! k) <-> entries m k <> []).
Proof.
  intros Hm. unfold entries. split.
  - intros [recs Hk]. rewrite Hk. cbn. exact (Hm k recs Hk).
  - destruct (m !! k) as [recs|]; [eauto | cbn; congruence].
Qed.

Section AggregatorClaims.

Variable unpack : JUnitStatistics.t -> gmap string pyval.
Variables TEST_NAME HEXSHA : string.

#[local] Abbreviation find := (find_salient_commits unpack TEST_NAME HEXSHA).
#[local] Abbreviation record := (salience_record unpack TEST_NAME HEXSHA).
#[local] Abbreviation records := (records_of unpack TEST_NAME HEXSHA).

(** C5, as the code has it: a statistic is classified with the module-level
    thresholds in force when [find_salient_commits] runs; the thresholds
    stored in its series are not read.  The records under a key are those
    of the statistics with that commit id that exceed a module-level
    threshold; where the stored thresholds of every series equal the
    module-level ones, those are the statistics that exceed a threshold of
    their own series. *)
Theorem find_salient_commits_module_thresholds (g : globals)
    (l : list BenchmarkStatistics.t) (k : string) (d : gmap string pyval) :
  (d ∈ entries (find g l) k <->
   exists bs cs, bs ∈ l
     /\ cs ∈ BenchmarkStatistics.junit_statistics bs
     /\ JUnitStatistics.commit_id cs = k
     /\ (DELTA_THRESHOLD g < JUnitStatistics.runtime_delta cs
         \/ SPEEDUP_THRESHOLD g < JUnitStatistics.speedup cs)
     /\ d = record (BenchmarkStatistics.test_name bs) cs)
  /\ (Forall (fun bs => BenchmarkStatistics.delta_threshold bs = DELTA_THRESHOLD g
                        /\ BenchmarkStatistics.speedup_threshold bs = SPEEDUP_THRESHOLD g) l ->
      (d ∈ entries (find g l) k <->
       exists bs cs, bs ∈ l
         /\ cs ∈ BenchmarkStatistics.junit_statistics bs
         /\ JUnitStatistics.commit_id cs = k
         /\ (BenchmarkStatistics.delta_threshold bs < JUnitStatistics.runtime_delta cs
             \/ BenchmarkStatistics.speedup_threshold bs < JUnitStatistics.speedup cs)
         /\ d = record (BenchmarkStatistics.test_name bs) cs)).
Proof.
  split.
  - rewrite elem_of_entries_find. split.
    + intros (bs & cs & ? & ? & ? & Hs & ?). exists bs, cs.
      apply is_salient_spec in Hs. tauto.
    + intros (bs & cs & ? & ? & ? & Hs & ?). exists bs, cs.
      apply is_salient_spec in Hs. tauto.
  - intros Hall. rewrite Forall_forall in Hall.
    rewrite elem_of_entries_find. split.
    + intros (bs & cs & Hbs & ? & ? & Hs & ?). exists bs, cs.
      apply is_salient_spec in Hs.
      destruct (Hall bs Hbs) as [-> ->]. tauto.
    + intros (bs & cs & Hbs & ? & ? & Hs & ?). exists bs, cs.
      destruct (Hall bs Hbs) as [Hd Hsp]. rewrite Hd, Hsp in Hs.
      apply is_salient_spec in Hs. tauto.
Qed.

(** C6: the map holds as many records as the series have salient
    statistics, all series together; the list under a key is the
    concatenation, series after series, of the records of the salient
    statistics with that commit id, so a record is neither overwritten nor
    merged with an equal one. *)
Theorem find_salient_commits_complete (g : globals)
    (l : list BenchmarkStatistics.t) :
  total_entries (find g l) = sum_list (map (salient_count g) l)
  /\ forall k, entries (find g l) k = concat (map (records g k) l).
Proof.
  split.
  - unfold find_salient_commits.
    rewrite total_foldl_series, total_entries_empty. reflexivity.
  - intros k. apply entries_find_salient_commits.
Qed.

(** C10: no key of the map holds an empty list, and a commit id is a key
    exactly when one of its statistics in some series is salient. *)
Theorem find_salient_commits_keys (g : globals)
    (l : list BenchmarkStatistics.t) (k : string) :
  (forall recs, find g l !! k = Some recs -> recs <> [])
  /\ (is_Some (find g l !! k) <->
      exists bs cs, bs ∈ l
        /\ cs ∈ BenchmarkStatistics.junit_statistics bs
        /\ JUnitStatistics.commit_id cs = k
        /\ is_salient g cs = true).
Proof.
  split.
  - intros recs. apply nonempty_find_salient_commits.
  - rewrite is_Some_lookup_entries by apply nonempty_find_salient_commits.
    split.
    + intros Hne.
      destruct (entries (find g l) k) as [|d recs] eqn:E; [congruence|].
      assert (Hd : d ∈ entries (find g l) k) by (rewrite E; left).
      apply elem_of_entries_find in Hd as (bs & cs & ? & ? & ? & ? & _).
      exists bs, cs. tauto.
    + intros (bs & cs & Hbs & Hcs & Hk & Hs) E.
      assert (Hd : record (BenchmarkStatistics.test_name bs) cs
                   ∈ entries (find g l) k).
      { apply elem_of_entries_find. exists bs, cs. tauto. }
      rewrite E in Hd. inversion Hd.
Qed.

End AggregatorClaims.

(** Two series that flag the same commit with equal records: both records
    are kept under the key. *)
Example same_commit_flagged_twice :
  length (entries (find_salient_commits spec_unpack spec_TEST_NAME spec_HEXSHA
                     default_globals [default_series; default_series]) "c2")
  = 2%nat.
Proof. vm_compute. reflexivity. Qed.

Lemma find_salient_commits_module_thresholds_witness :
  let d := salience_record spec_unpack spec_TEST_NAME spec_HEXSHA "T"
             (JUnitStatistics.mk "c2" (19 # 2) (19 # 10) (9 # 2)) in
  d ∈ entries (find_salient_commits spec_unpack spec_TEST_NAME spec_HEXSHA
                 default_globals [default_series]) "c2" <->
  exists bs cs, bs ∈ [default_series]
    /\ cs ∈ BenchmarkStatistics.junit_statistics bs
    /\ JUnitStatistics.commit_id cs = "c2"
    /\ (BenchmarkStatistics.delta_threshold bs < JUnitStatistics.runtime_delta cs
        \/ BenchmarkStatistics.speedup_threshold bs < JUnitStatistics.speedup cs)
    /\ d = salience_record spec_unpack spec_TEST_NAME spec_HEXSHA
             (BenchmarkStatistics.test_name bs) cs.
Proof.
  intros d.
  apply (proj2 (find_salient_commits_module_thresholds spec_unpack spec_TEST_NAME
                  spec_HEXSHA default_globals [default_series] "c2" d)).
  repeat constructor.
Defined.

(** C5 as the spec words it fails: [lenient_series] stores thresholds of
    100, its statistic (delta 3, speedup 10/7) exceeds neither of them, and
    yet under the default module-level thresholds the statistic is recorded
    as salient. *)
Lemma find_salient_commits_own_thresholds_counterexample :
  BenchmarkStatistics.junit_statistics lenient_series = [lenient_statistic]
  /\ ~ (BenchmarkStatistics.delta_threshold lenient_series
          < JUnitStatistics.runtime_delta lenient_statistic
        \/ BenchmarkStatistics.speedup_threshold lenient_series
          < JUnitStatistics.speedup lenient_statistic)
  /\ find_salient_commits spec_unpack spec_TEST_NAME spec_HEXSHA
       default_globals [lenient_series] !! "c1"
     = Some [salience_record spec_unpack spec_TEST_NAME spec_HEXSHA "T" lenient_statistic].
Proof.
  split; [reflexivity|]. split.
  - intros [H | H]; discriminate H.
  - vm_compute. reflexivity.
Qed.

(** ** The end-to-end example *)

Lemma example_std_dev_bounds :
  (2745 / 1000 <= sample_std_dev (map measurement example_reports) < 2755 / 1000)%R.
Proof.
  unfold sample_std_dev.
  match goal with |- context [Q2R ?v] =>
    assert (Hv : v == 91 # 12) by (vm_compute; reflexivity);
    rewrite (Qeq_eqR _ _ Hv)
  end.
  assert (Hq : Q2R (91 # 12) = (91 / 12)%R) by (unfold Q2R; cbn; lra).
  rewrite Hq.
  assert (Hpos : (0 <= 91 / 12)%R) by lra.
  split.
  - apply Rsqr_incr_0_var; [|apply sqrt_pos].
    rewrite (Rsqr_sqrt _ Hpos). unfold Rsqr. lra.
  - apply Rsqr_incrst_0; [|apply sqrt_pos|lra].
    rewrite (Rsqr_sqrt _ Hpos). unfold Rsqr. lra.
Qed.

(** C7: the series of test "T" with measurements 10.0, 9.5, 5.0 for the
    commits c1, c2, c3, under the thresholds 2 and 2.0.  The statistics are
    c1 (delta 0.5, speedup 1.053 to three decimals, not salient) and c2
    (delta 4.5, speedup 1.9, salient by its delta and not by its speedup);
    the standard deviation is 2.75 to two decimals; the map of salient commits
    has the single key c2 with a single record, the one built from test "T"
    and the statistic of c2, which holds the test name "T", the delta, the
    speedup and the runtime 9.5 of c2 and no commit id. *)
Theorem end_to_end_example :
  exists bs s1 s2,
    analyze_report_list default_globals example_reports = Ok bs
    /\ BenchmarkStatistics.test_name bs = "T"
    /\ BenchmarkStatistics.junit_statistics bs = [s1; s2]
    /\ (JUnitStatistics.commit_id s1 = "c1"
        /\ JUnitStatistics.runtime_delta s1 == 0.5
        /\ 1.0525 <= JUnitStatistics.speedup s1
        /\ JUnitStatistics.speedup s1 < 1.0535
        /\ is_salient default_globals s1 = false)
    /\ (JUnitStatistics.commit_id s2 = "c2"
        /\ JUnitStatistics.runtime s2 == 9.5
        /\ JUnitStatistics.runtime_delta s2 == 4.5
        /\ JUnitStatistics.speedup s2 == 1.9
        /\ is_salient default_globals s2 = true
        /\ DELTA_THRESHOLD default_globals < JUnitStatistics.runtime_delta s2
        /\ ~ SPEEDUP_THRESHOLD default_globals < JUnitStatistics.speedup s2)
    /\ (2745 / 1000 <= BenchmarkStatistics.std_dev bs < 2755 / 1000)%R
    /\ (forall unpack TEST_NAME HEXSHA,
          find_salient_commits unpack TEST_NAME HEXSHA default_globals [bs]
          = {[ "c2" := [salience_record unpack TEST_NAME HEXSHA "T" s2] ]})
    /\ (let d := salience_record spec_unpack spec_TEST_NAME spec_HEXSHA "T" s2 in
        d !! "test_name" = Some (PStr "T")
        /\ d !! "runtime_delta" = Some (PNum (JUnitStatistics.runtime_delta s2))
        /\ d !! "speedup" = Some (PNum (JUnitStatistics.speedup s2))
        /\ d !! "runtime" = Some (PNum (JUnitStatistics.runtime s2))
        /\ d !! "commit_id" = None).
Proof.
  unfold example_reports. rewrite analyze_report_list_cons.
  fold example_reports.
  eexists. eexists. eexists.
  split; [reflexivity|]. split; [reflexivity|].
  cbn [BenchmarkStatistics.junit_statistics BenchmarkStatistics.std_dev].
  split; [reflexivity|].
  split; [repeat split; try reflexivity; discriminate|].
  split; [repeat split; try reflexivity; discriminate|].
  split; [cbn [length Nat.leb]; apply example_std_dev_bounds|].
  generalize (if (2 <=? length example_reports)%nat
              then sample_std_dev (map measurement example_reports) else 0%R).
  intros sd. split.
  - intros unpack TEST_NAME HEXSHA.
    unfold find_salient_commits, record_series, record_commit. cbn.
    reflexivity.
  - repeat split; vm_compute; reflexivity.
Qed.

(** * Further properties of the code *)

(** ** More on [analyze_report_list] *)

Lemma lookup_adjacent_statistics_inv (reports : list JUnitCommitReport.t) (i : nat) s :
  adjacent_statistics reports !! i = Some s ->
  exists a b, reports !! i = Some a /\ reports !! S i = Some b /\ s = statistic_of a b.
Proof.
  revert i. induction reports as [|x [|y rest] IH]; intros i Hs.
  - discriminate.
  - discriminate.
  - destruct i as [|i].
    + cbn in Hs. injection Hs as <-. exists x, y. auto.
    + cbn [adjacent_statistics] in Hs. change ((?u :: ?l) !! S i) with (l !! i) in Hs.
      apply IH in Hs as (a & b & Ha & Hb & ->). exists a, b. auto.
Qed.

Lemma analyze_report_list_Ok_inv (g : globals) (reports : list JUnitCommitReport.t) bs :
  analyze_report_list g reports = Ok bs ->
  exists r rest,
    reports = r :: rest
    /\ BenchmarkStatistics.test_name bs = JUnitReport.test_name (JUnitCommitReport.report r)
    /\ BenchmarkStatistics.delta_threshold bs = DELTA_THRESHOLD g
    /\ BenchmarkStatistics.speedup_threshold bs = SPEEDUP_THRESHOLD g
    /\ BenchmarkStatistics.junit_statistics bs = adjacent_statistics reports.
Proof.
  destruct reports as [|r rest]; [discriminate|].
  rewrite analyze_report_list_cons. intros [= <-]. exists r, rest. auto.
Qed.

(** The result is labelled with the test name of the first report, whatever
    the names of the others, it stores the module-level thresholds, and
    statistic [i] holds the measurement of report [i] as its runtime. *)
Theorem analyze_report_list_labels (g : globals)
    (reports : list JUnitCommitReport.t) (bs : BenchmarkStatistics.t) :
  analyze_report_list g reports = Ok bs ->
  (exists r, reports !! 0%nat = Some r
     /\ BenchmarkStatistics.test_name bs = JUnitReport.test_name (JUnitCommitReport.report r))
  /\ BenchmarkStatistics.delta_threshold bs = DELTA_THRESHOLD g
  /\ BenchmarkStatistics.speedup_threshold bs = SPEEDUP_THRESHOLD g
  /\ forall i s,
       BenchmarkStatistics.junit_statistics bs !! i = Some s ->
       exists a, reports !! i = Some a
         /\ is_Some (reports !! S i)
         /\ JUnitStatistics.commit_id s = JUnitCommitReport.commit_id a
         /\ JUnitStatistics.runtime s = measurement a.
Proof.
  intros H. apply analyze_report_list_Ok_inv in H
    as (r & rest & -> & Hname & Hd & Hs & Hstats).
  split; [exists r; auto|]. split; [exact Hd|]. split; [exact Hs|].
  intros i s Hi. rewrite Hstats in Hi.
  apply lookup_adjacent_statistics_inv in Hi as (a & b & Ha & Hb & ->).
  exists a. split; [exact Ha|]. split; [eauto|]. split; reflexivity.
Qed.

Lemma analyze_report_list_labels_witness :
  exists bs,
    analyze_report_list default_globals steady_reports = Ok bs
    /\ BenchmarkStatistics.test_name bs = "T"
    /\ BenchmarkStatistics.delta_threshold bs = 2.
Proof.
  destruct (analyze_report_list default_globals steady_reports) as [bs|e] eqn:E;
    [|discriminate E].
  exists bs. split; [reflexivity|].
  destruct (analyze_report_list_labels default_globals steady_reports bs E)
    as ((r & Hr & Hname) & Hd & _).
  injection Hr as <-. split; [exact Hname | exact Hd].
Defined.



Lemma sum_constant (m : Q) (data : list Q) :
  Forall (fun x => x == m) data ->
  statistics.sum data == inject_Z (Z.of_nat (length data)) * m.
Proof.
  induction 1 as [|x data Hx _ IH].
  - cbn. ring.
  - cbn [statistics.sum foldr length]. fold (statistics.sum data).
    rewrite IH, Hx, inject_Z_of_nat_S. ring.
Qed.

Lemma squares_constant (m c : Q) (data : list Q) :
  c == m -> Forall (fun x => x == m) data ->
  foldr (fun x acc => (x - c) ^ 2 + acc) 0 data == 0.
Proof.
  intros Hc. induction 1 as [|x data Hx _ IH].
  - reflexivity.
  - cbn [foldr]. rewrite IH, Hx, Hc. ring.
Qed.

Lemma sample_std_dev_constant (m : Q) (data : list Q) :
  data <> [] -> Forall (fun x => x == m) data -> sample_std_dev data = 0%R.
Proof.
  intros Hne Hall. unfold sample_std_dev.
  assert (Hn : ~ inject_Z (Z.of_nat (length data)) == 0).
  { apply inject_Z_of_nat_nonzero. destruct data; [congruence | cbn; lia]. }
  assert (Hmean : foldr Qplus 0 data / inject_Z (Z.of_nat (length data)) == m).
  { fold (statistics.sum data). rewrite (sum_constant m data Hall). field. exact Hn. }
  assert (Hv : foldr (fun x acc =>
                        (x - foldr Qplus 0 data / inject_Z (Z.of_nat (length data))) ^ 2
                        + acc) 0 data
               / (inject_Z (Z.of_nat (length data)) - 1) == 0).
  { rewrite (squares_constant m _ data Hmean Hall). reflexivity. }
  rewrite (Qeq_eqR _ _ Hv).
  replace (Q2R 0) with 0%R by (unfold Q2R; cbn; lra).
  apply sqrt_0.
Qed.

(** A series of identical measurements, two or more: the standard deviation is
    [0] and every delta is [0]. *)
Theorem analyze_report_list_identical (g : globals)
    (reports : list JUnitCommitReport.t) (m : Q) :
  (2 <= length reports)%nat ->
  Forall (fun r => measurement r == m) reports ->
  exists bs,
    analyze_report_list g reports = Ok bs
    /\ BenchmarkStatistics.std_dev bs = 0%R
    /\ Forall (fun s => JUnitStatistics.runtime_delta s == 0)
         (BenchmarkStatistics.junit_statistics bs).
Proof.
  intros Hlen Hall. destruct reports as [|r rest]; [cbn in Hlen; lia|].
  eexists. split; [apply analyze_report_list_cons|].
  cbn [BenchmarkStatistics.std_dev BenchmarkStatistics.junit_statistics]. split.
  - destruct (Nat.leb_spec 2 (length (r :: rest))); [|lia].
    apply (sample_std_dev_constant m); [discriminate|].
    apply Forall_fmap. exact Hall.
  - clear Hlen. revert Hall. generalize (r :: rest) as l. clear r rest.
    induction l as [|a [|b l] IH]; intros Hall; try constructor.
    + inversion Hall as [|? ? Ha Hrest]; subst. inversion Hrest as [|? ? Hb _]; subst.
      cbn [statistic_of JUnitStatistics.runtime_delta]. rewrite Ha, Hb. ring.
    + apply IH. inversion Hall; assumption.
Qed.

Lemma analyze_report_list_identical_witness :
  exists bs,
    analyze_report_list default_globals steady_reports = Ok bs
    /\ BenchmarkStatistics.std_dev bs = 0%R
    /\ Forall (fun s => JUnitStatistics.runtime_delta s == 0)
         (BenchmarkStatistics.junit_statistics bs).
Proof.
  apply (analyze_report_list_identical default_globals steady_reports 3).
  - cbn. lia.
  - repeat constructor.
Defined.

(** ** [analyze_jmh_reports] *)

Lemma jmh_pair_statistics_ok (reports : list JmhCommitReport.t) mode (i : nat) a b :
  reports !! i = Some a -> reports !! (i + 1)%nat = Some b ->
  jmh_pair_statistics reports mode i = Ok (jmh_statistic_of mode a b).
Proof.
  intros Ha Hb. unfold jmh_pair_statistics, getitem. rewrite Ha, Hb. reflexivity.
Qed.

Lemma jmh_statistics_loop_from (pre rest : list JmhCommitReport.t) mode
    (acc : list JmhStatistics.t) :
  jmh_statistics_loop (pre ++ rest) mode (seq (length pre) (length rest - 1)) acc
  = Ok (acc ++ jmh_adjacent_statistics mode rest).
Proof.
  revert pre acc. induction rest as [|a rest IH]; intros pre acc.
  - cbn. rewrite app_nil_r. reflexivity.
  - destruct rest as [|b rest'].
    + cbn. rewrite app_nil_r. reflexivity.
    + replace (length (a :: b :: rest') - 1)%nat with (S (length (b :: rest') - 1))
        by (cbn [length]; lia).
      cbn [seq jmh_statistics_loop jmh_adjacent_statistics].
      rewrite (jmh_pair_statistics_ok _ _ _ a b).
      * cbn [mbind pyresult_bind].
        specialize (IH (pre ++ [a]) (acc ++ [jmh_statistic_of mode a b])).
        rewrite length_app, Nat.add_1_r in IH. cbn [length] in IH.
        rewrite <- !app_assoc in IH. exact IH.
      * rewrite lookup_app_r by lia. rewrite Nat.sub_diag. reflexivity.
      * rewrite lookup_app_r by lia.
        replace (length pre + 1 - length pre)%nat with 1%nat by lia. reflexivity.
Qed.

Lemma analyze_jmh_reports_cons (r : JmhCommitReport.t) (rest : list JmhCommitReport.t) :
  analyze_jmh_reports (r :: rest)
  = ([log_jmh_statistics
        (jmh_adjacent_statistics (JmhReport.mode (JmhCommitReport.jmh_report r))
           (r :: rest))],
     Ok tt).
Proof.
  unfold analyze_jmh_reports, range. cbn [getitem lookup list_lookup].
  replace (Z.to_nat (Z.of_nat (length (r :: rest)) - 1))
    with (length (r :: rest) - 1)%nat by lia.
  rewrite (jmh_statistics_loop_from [] (r :: rest)). reflexivity.
Qed.

Lemma length_jmh_adjacent_statistics mode (reports : list JmhCommitReport.t) :
  length (jmh_adjacent_statistics mode reports) = (length reports - 1)%nat.
Proof.
  induction reports as [|a [|b rest] IH]; cbn in *; try reflexivity.
  rewrite IH. lia.
Qed.

Lemma lookup_jmh_adjacent_statistics mode (reports : list JmhCommitReport.t) (i : nat) a b :
  reports !! i = Some a -> reports !! S i = Some b ->
  jmh_adjacent_statistics mode reports !! i = Some (jmh_statistic_of mode a b).
Proof.
  revert i. induction reports as [|x [|y rest] IH]; intros i Ha Hb.
  - discriminate.
  - destruct i; discriminate.
  - destruct i as [|i].
    + cbn in *. congruence.
    + cbn [jmh_adjacent_statistics]. change ((?u :: ?l) !! S i) with (l !! i).
      apply IH; assumption.
Qed.

(** On an empty list of reports [analyze_jmh_reports] raises [IndexError]
    (at [jmh_commit_reports[0]]) and logs nothing. *)
Theorem analyze_jmh_reports_empty :
  forall reports, reports = [] <-> analyze_jmh_reports reports = ([], Raise IndexError).
Proof.
  intros reports. split.
  - intros ->. reflexivity.
  - destruct reports as [|r rest]; [reflexivity|].
    rewrite analyze_jmh_reports_cons. discriminate.
Qed.

(** On [n >= 1] reports [analyze_jmh_reports] ends normally after one call of
    the logger, with [n - 1] statistics; statistic [i] holds the commit id and
    the score of report [i], the delta [score[i] - score[i+1]], and the mode
    of the first report, whatever the mode of report [i]. *)
Theorem analyze_jmh_reports_statistics (reports : list JmhCommitReport.t)
    (r_0 : JmhCommitReport.t) :
  reports !! 0%nat = Some r_0 ->
  exists l,
    analyze_jmh_reports reports = ([log_jmh_statistics l], Ok tt)
    /\ length l = (length reports - 1)%nat
    /\ forall i a b,
         reports !! i = Some a -> reports !! S i = Some b ->
         l !! i = Some (JmhStatistics.mk
                          (JmhCommitReport.commit_id a)
                          (JmhReport.mode (JmhCommitReport.jmh_report r_0))
                          (jmh_score a)
                          (jmh_score a - jmh_score b)).
Proof.
  intros H0. destruct reports as [|r rest]; [discriminate|].
  injection H0 as ->.
  eexists. split; [apply analyze_jmh_reports_cons|].
  split; [apply length_jmh_adjacent_statistics|].
  intros i a b Ha Hb. apply (lookup_jmh_adjacent_statistics _ _ _ a b Ha Hb).
Qed.

Lemma analyze_jmh_reports_statistics_witness :
  exists l,
    analyze_jmh_reports example_jmh_reports = ([log_jmh_statistics l], Ok tt)
    /\ length l = 2%nat
    /\ l !! 1%nat = Some (JmhStatistics.mk "c2" "avgt" (95 # 10) ((95 # 10) - 5)).
Proof.
  destruct (analyze_jmh_reports_statistics example_jmh_reports
              (JmhCommitReport.mk "c1" (JmhReport.mk "avgt" (PrimaryMetric.mk 10)))
              eq_refl) as (l & Hl & Hlen & Hstat).
  exists l. split; [exact Hl|]. split; [exact Hlen|].
  apply (Hstat 1%nat
           (JmhCommitReport.mk "c2" (JmhReport.mk "thrpt" (PrimaryMetric.mk (95 # 10))))
           (JmhCommitReport.mk "c3" (JmhReport.mk "avgt" (PrimaryMetric.mk 5))));
    reflexivity.
Defined.

(** ** More on [find_salient_commits] *)

Section AggregatorMore.

Variable unpack : JUnitStatistics.t -> gmap string pyval.
Variables TEST_NAME HEXSHA : string.

#[local] Abbreviation find := (find_salient_commits unpack TEST_NAME HEXSHA).
#[local] Abbreviation record := (salience_record unpack TEST_NAME HEXSHA).

Lemma lookup_find_None (g : globals) (l : list BenchmarkStatistics.t) (k : string) :
  find g l !! k = None <->
  forall bs cs, bs ∈ l -> cs ∈ BenchmarkStatistics.junit_statistics bs ->
    JUnitStatistics.commit_id cs = k -> is_salient g cs = false.
Proof.
  rewrite eq_None_not_Some.
  rewrite is_Some_lookup_entries by apply nonempty_find_salient_commits.
  split.
  - intros Hnone bs cs Hbs Hcs Hk. apply not_true_iff_false. intros Hs.
    apply Hnone. intros E.
    assert (Hd : record (BenchmarkStatistics.test_name bs) cs ∈ entries (find g l) k).
    { apply elem_of_entries_find. exists bs, cs. auto. }
    rewrite E in Hd. inversion Hd.
  - intros Hall Hne.
    destruct (entries (find g l) k) as [|d recs] eqn:E; [congruence|].
    assert (Hd : d ∈ entries (find g l) k) by (rewrite E; left).
    apply elem_of_entries_find in Hd as (bs & cs & Hbs & Hcs & Hk & Hs & _).
    rewrite (Hall bs cs Hbs Hcs Hk) in Hs. discriminate.
Qed.

Lemma find_empty_iff (g : globals) (l : list BenchmarkStatistics.t) :
  find g l = ∅ <->
  forall bs cs, bs ∈ l -> cs ∈ BenchmarkStatistics.junit_statistics bs ->
    is_salient g cs = false.
Proof.
  split.
  - intros E bs cs Hbs Hcs.
    apply (proj1 (lookup_find_None g l (JUnitStatistics.commit_id cs))
             ltac:(rewrite E; apply lookup_empty) bs cs Hbs Hcs eq_refl).
  - intros Hall. apply map_eq. intros k. rewrite lookup_empty.
    apply lookup_find_None. intros bs cs Hbs Hcs _. apply (Hall bs cs Hbs Hcs).
Qed.

(** The map is empty exactly when no statistic of any series is salient. *)
Theorem find_salient_commits_empty_iff (g : globals)
    (l : list BenchmarkStatistics.t) :
  find_salient_commits unpack TEST_NAME HEXSHA g l = ∅ <->
  forall bs cs, bs ∈ l -> cs ∈ BenchmarkStatistics.junit_statistics bs ->
    is_salient g cs = false.
Proof. apply find_empty_iff. Qed.

(** Aggregating two collections one after the other is aggregating them
    apart and, key by key, appending the records of the second to those of
    the first. *)
Theorem find_salient_commits_app (g : globals)
    (l1 l2 : list BenchmarkStatistics.t) (k : string) :
  entries (find g (l1 ++ l2)) k = entries (find g l1) k ++ entries (find g l2) k.
Proof.
  rewrite !entries_find_salient_commits, map_app, concat_app. reflexivity.
Qed.

(** Every record of the map comes from a salient statistic of some series:
    it has no [HEXSHA] key, it holds the test name of that series under
    [TEST_NAME] (when the two keys differ), and under every other key what
    [unpack] gives for the statistic. *)
Theorem find_salient_commits_records (g : globals)
    (l : list BenchmarkStatistics.t) (k : string) (d : gmap string pyval) :
  d ∈ entries (find g l) k ->
  exists bs cs,
    bs ∈ l /\ cs ∈ BenchmarkStatistics.junit_statistics bs
    /\ JUnitStatistics.commit_id cs = k
    /\ d !! HEXSHA = None
    /\ (TEST_NAME <> HEXSHA ->
        d !! TEST_NAME = Some (PStr (BenchmarkStatistics.test_name bs)))
    /\ forall j, j <> TEST_NAME -> j <> HEXSHA -> d !! j = unpack cs !! j.
Proof.
  intros Hd. apply elem_of_entries_find in Hd as (bs & cs & Hbs & Hcs & Hk & _ & ->).
  exists bs, cs. split; [exact Hbs|]. split; [exact Hcs|]. split; [exact Hk|].
  unfold salience_record. split; [apply lookup_delete_eq|]. split.
  - intros Hne. rewrite lookup_delete_ne by congruence. apply lookup_insert_eq.
  - intros j Hj1 Hj2. rewrite lookup_delete_ne by congruence.
    apply lookup_insert_ne. congruence.
Qed.


(** A series of sub-second measurements flags nothing under thresholds of at
    least [1] for the delta and [0] for the speedup, the defaults among them:
    every speedup is the fallback [0] and every delta is below [1]. *)
Theorem sub_second_flags_nothing (g : globals)
    (reports : list JUnitCommitReport.t) :
  reports <> [] ->
  1 <= DELTA_THRESHOLD g -> 0 <= SPEEDUP_THRESHOLD g ->
  Forall (fun r => 0 <= measurement r /\ measurement r < 1) reports ->
  exists bs, analyze_report_list g reports = Ok bs /\ find g [bs] = ∅.
Proof.
  intros Hne Hd Hs Hall. destruct reports as [|r rest]; [congruence|].
  eexists. split; [apply analyze_report_list_cons|].
  apply find_empty_iff. intros bs cs Hbs Hcs.
  apply list_elem_of_singleton in Hbs. subst bs.
  cbn [BenchmarkStatistics.junit_statistics] in Hcs.
  apply list_elem_of_lookup in Hcs as (i & Hi).
  apply lookup_adjacent_statistics_inv in Hi as (a & b & Ha & Hb & ->).
  rewrite Forall_forall in Hall.
  destruct (Hall a) as [Ha0 Ha1]; [apply list_elem_of_lookup; eauto|].
  destruct (Hall b) as [Hb0 Hb1]; [apply list_elem_of_lookup; eauto|].
  apply not_true_iff_false. rewrite is_salient_spec.
  cbn [statistic_of JUnitStatistics.runtime_delta JUnitStatistics.speedup].
  rewrite (int_zero_of_unit_interval _ Hb0 Hb1). cbn [Z.eqb].
  intros [H | H].
  - apply (Qlt_not_le _ _ H). apply Qle_trans with 1; [|exact Hd].
    apply Qle_trans with (measurement a); [|apply Qlt_le_weak, Ha1].
    rewrite <- (Qplus_0_r (measurement a)) at 2. unfold Qminus.
    apply Qplus_le_r. apply (Qopp_le_compat 0). exact Hb0.
  - exact (Qlt_not_le _ _ H Hs).
Qed.

End AggregatorMore.

Lemma find_salient_commits_records_witness :
  exists d,
    d ∈ entries (find_salient_commits spec_unpack spec_TEST_NAME spec_HEXSHA
                   default_globals [default_series]) "c2"
    /\ d !! "commit_id" = None.
Proof.
  exists (salience_record spec_unpack spec_TEST_NAME spec_HEXSHA "T"
            (JUnitStatistics.mk "c2" (19 # 2) (19 # 10) (9 # 2))).
  assert (Hd : salience_record spec_unpack spec_TEST_NAME spec_HEXSHA "T"
                 (JUnitStatistics.mk "c2" (19 # 2) (19 # 10) (9 # 2))
               ∈ entries (find_salient_commits spec_unpack spec_TEST_NAME spec_HEXSHA
                            default_globals [default_series]) "c2").
  { vm_compute. left. }
  split; [exact Hd|].
  destruct (find_salient_commits_records spec_unpack spec_TEST_NAME spec_HEXSHA
              default_globals [default_series] "c2" _ Hd)
    as (bs & cs & _ & _ & _ & Hhex & _).
  exact Hhex.
Defined.


Lemma sub_second_flags_nothing_witness :
  exists bs,
    analyze_report_list default_globals sub_second_reports = Ok bs
    /\ find_salient_commits spec_unpack spec_TEST_NAME spec_HEXSHA default_globals [bs] = ∅.
Proof.
  apply (sub_second_flags_nothing spec_unpack spec_TEST_NAME spec_HEXSHA
           default_globals sub_second_reports).
  - discriminate.
  - discriminate.
  - discriminate.
  - repeat constructor; discriminate.
Defined.

(** ** [analyze_junit_reports] *)

Section DriverFacts.

Variable unpack : JUnitStatistics.t -> gmap string pyval.
Variables TEST_NAME HEXSHA : string.
Variable g : globals.
Variable path_to_log_dir : string.

#[local] Abbreviation find := (find_salient_commits unpack TEST_NAME HEXSHA g).
#[local] Abbreviation record := (salience_record unpack TEST_NAME HEXSHA).
#[local] Abbreviation logged :=
  (map (fun bs => log_benchmark_statistics bs path_to_log_dir)).
#[local] Abbreviation analyzed :=
  (Forall2 (fun file bs => analyze_report_list g file = Ok bs)).

Lemma analyze_files_empty_file (pre post : list (list JUnitCommitReport.t))
    (statistics_list : list BenchmarkStatistics.t) :
  Forall (fun file => file <> []) pre ->
  exists sl,
    analyzed pre sl
    /\ analyze_files g path_to_log_dir (pre ++ [] :: post) statistics_list
       = (logged sl, Raise IndexError).
Proof.
  intros Hall. revert statistics_list.
  induction Hall as [|file files Hfile _ IH]; intros acc.
  - exists []. split; [constructor|]. reflexivity.
  - destruct file as [|r rest]; [congruence|].
    cbn [app analyze_files]. rewrite analyze_report_list_cons.
    set (bs := BenchmarkStatistics.mk _ _ _ _ _).
    destruct (IH (acc ++ [bs])) as (sl & Hsl & E). rewrite E.
    exists (bs :: sl). split; [|reflexivity].
    constructor; [apply analyze_report_list_cons | exact Hsl].
Qed.

Lemma analyze_files_analyzed (files : list (list JUnitCommitReport.t))
    (sl statistics_list : list BenchmarkStatistics.t) :
  analyzed files sl ->
  analyze_files g path_to_log_dir files statistics_list
  = (logged sl, Ok (statistics_list ++ sl)).
Proof.
  intros Hsl. revert statistics_list.
  induction Hsl as [|file bs files sl Hbs _ IH]; intros acc.
  - cbn. rewrite app_nil_r. reflexivity.
  - cbn [analyze_files]. rewrite Hbs, (IH (acc ++ [bs])), <- app_assoc. reflexivity.
Qed.

(** A run under numeric thresholds, which is a run without a threshold option
    on the command line (an option rebinds its threshold to a text), over at
    least one file, where [analyze_report_list] returns for every file: the
    run ends normally; it logs the statistics of every file, in the order of
    the files, and then, once, the salient commits of all of them. *)
Theorem analyze_junit_reports_logs (a : cli.args)
    (files : list (list JUnitCommitReport.t)) (sl : list BenchmarkStatistics.t) :
  cli.rebind a
  = cli.Globals (cli.Number (DELTA_THRESHOLD g)) (cli.Number (SPEEDUP_THRESHOLD g)) ->
  files <> [] ->
  analyzed files sl ->
  analyze_junit_reports unpack TEST_NAME HEXSHA g path_to_log_dir files
  = (logged sl ++ [log_salient_commits (find sl) path_to_log_dir], Ok tt).
Proof.
  intros _ Hne Hsl. unfold analyze_junit_reports.
  rewrite (analyze_files_analyzed files sl [] Hsl).
  destruct files; [congruence|]. reflexivity.
Qed.

(** A file without reports stops the run with [IndexError]: the statistics
    of the files before it have been logged, those of the files after it are
    not, and the salient commits are never logged. *)
Theorem analyze_junit_reports_empty_file (pre post : list (list JUnitCommitReport.t)) :
  Forall (fun file => file <> []) pre ->
  exists sl,
    analyzed pre sl
    /\ analyze_junit_reports unpack TEST_NAME HEXSHA g path_to_log_dir (pre ++ [] :: post)
       = (logged sl, Raise IndexError).
Proof.
  intros Hall. unfold analyze_junit_reports.
  destruct (analyze_files_empty_file pre post [] Hall) as (sl & Hsl & E). rewrite E.
  exists sl. split; [exact Hsl|].
  destruct pre; reflexivity.
Qed.

(** Without files the run prints its complaint and goes on: it still logs
    the salient commits, an empty map, and ends normally. *)
Theorem analyze_junit_reports_no_files :
  analyze_junit_reports unpack TEST_NAME HEXSHA g path_to_log_dir []
  = ([print (String.append "Error: No log files found in " path_to_log_dir);
             log_salient_commits ∅ path_to_log_dir], Ok tt)
  /\ forall files text,
       print text ∈ (analyze_junit_reports unpack TEST_NAME HEXSHA g path_to_log_dir files).1 ->
       files = [].
Proof.
  split; [reflexivity|].
  intros files text. unfold analyze_junit_reports.
  destruct files as [|file files]; [reflexivity|].
  cbn [length Nat.eqb app].
  destruct (analyze_files g path_to_log_dir (file :: files) []) as [events outcome] eqn:E.
  assert (Hnone : print text ∉ events).
  { clear -E. revert E. generalize (@nil BenchmarkStatistics.t) as acc.
    revert events outcome. induction (file :: files) as [|f fs IH];
      intros events outcome acc E; cbn in E.
    - injection E as <- <-. inversion 1.
    - destruct (analyze_report_list g f) as [bs|e].
      + destruct (analyze_files g path_to_log_dir fs (acc ++ [bs])) as [evs o] eqn:E'.
        injection E as <- <-. intros Hin. apply elem_of_cons in Hin as [Hin|Hin];
          [discriminate|]. exact (IH _ _ _ E' Hin).
      + injection E as <- <-. inversion 1. }
  destruct outcome as [sl|e]; cbn [fst].
  - intros Hin. apply elem_of_app in Hin as [Hin|Hin]; [contradiction|].
    apply list_elem_of_singleton in Hin. discriminate.
  - intros Hin. contradiction.
Qed.

(** In a run every series stores the thresholds it is classified with: the
    records under a key are those of the statistics with that commit id
    that exceed a threshold stored in their own series. *)
Theorem analyze_junit_reports_own_thresholds
    (files : list (list JUnitCommitReport.t)) (sl : list BenchmarkStatistics.t)
    (k : string) (d : gmap string pyval) :
  analyzed files sl ->
  (d ∈ entries (find sl) k <->
   exists bs cs, bs ∈ sl
     /\ cs ∈ BenchmarkStatistics.junit_statistics bs
     /\ JUnitStatistics.commit_id cs = k
     /\ (BenchmarkStatistics.delta_threshold bs < JUnitStatistics.runtime_delta cs
         \/ BenchmarkStatistics.speedup_threshold bs < JUnitStatistics.speedup cs)
     /\ d = record (BenchmarkStatistics.test_name bs) cs).
Proof.
  intros Hsl.
  assert (Hstored : forall bs, bs ∈ sl ->
            BenchmarkStatistics.delta_threshold bs = DELTA_THRESHOLD g
            /\ BenchmarkStatistics.speedup_threshold bs = SPEEDUP_THRESHOLD g).
  { induction Hsl as [|file bs files sl Hbs _ IH]; intros bs' Hin.
    - inversion Hin.
    - apply elem_of_cons in Hin as [-> | Hin]; [|apply IH, Hin].
      apply analyze_report_list_Ok_inv in Hbs as (_ & _ & _ & _ & Hd & Hs & _). auto. }
  rewrite elem_of_entries_find. split.
  - intros (bs & cs & Hbs & ? & ? & Hs & ?). exists bs, cs.
    apply is_salient_spec in Hs. destruct (Hstored bs Hbs) as [-> ->]. tauto.
  - intros (bs & cs & Hbs & ? & ? & Hs & ?). exists bs, cs.
    destruct (Hstored bs Hbs) as [Hd Hsp]. rewrite Hd, Hsp in Hs.
    apply is_salient_spec in Hs. tauto.
Qed.

(** A commit is flagged only through a report that has a successor in its
    file: every key of the salient commits of a run is the commit id of such
    a report, so the last report of a file is never flagged for itself. *)
Theorem analyze_junit_reports_keys
    (files : list (list JUnitCommitReport.t)) (sl : list BenchmarkStatistics.t)
    (k : string) :
  analyzed files sl ->
  is_Some (find sl !! k) ->
  exists file i a,
    file ∈ files /\ file !! i = Some a /\ is_Some (file !! S i)
    /\ JUnitCommitReport.commit_id a = k.
Proof.
  intros Hsl Hk.
  apply is_Some_lookup_entries in Hk; [|apply nonempty_find_salient_commits].
  destruct (entries (find sl) k) as [|d recs] eqn:E; [congruence|].
  assert (Hd : d ∈ entries (find sl) k) by (rewrite E; left).
  apply elem_of_entries_find in Hd as (bs & cs & Hbs & Hcs & Hid & _ & _).
  clear E Hk. induction Hsl as [|file bs' files sl Hfile _ IH].
  - inversion Hbs.
  - apply elem_of_cons in Hbs as [-> | Hbs].
    + apply analyze_report_list_Ok_inv in Hfile as (r & rest & -> & _ & _ & _ & Hstats).
      rewrite Hstats in Hcs. apply list_elem_of_lookup in Hcs as (i & Hi).
      apply lookup_adjacent_statistics_inv in Hi as (a & b & Ha & Hb & ->).
      exists (r :: rest), i, a. split; [left|]. split; [exact Ha|].
      split; [eauto|]. exact Hid.
    + destruct (IH Hbs) as (f & i & a & Hf & H). exists f, i, a.
      split; [right; exact Hf | exact H].
Qed.

End DriverFacts.

Lemma analyze_junit_reports_logs_witness :
  exists bs1 bs2,
    analyze_report_list default_globals example_reports = Ok bs1
    /\ analyze_report_list default_globals steady_reports = Ok bs2
    /\ analyze_junit_reports spec_unpack spec_TEST_NAME spec_HEXSHA default_globals "logs"
         [example_reports; steady_reports]
       = ([log_benchmark_statistics bs1 "logs"; log_benchmark_statistics bs2 "logs";
           log_salient_commits
             (find_salient_commits spec_unpack spec_TEST_NAME spec_HEXSHA
                default_globals [bs1; bs2]) "logs"],
          Ok tt).
Proof.
  destruct (analyze_report_list default_globals example_reports) as [bs1|e] eqn:E1;
    [|discriminate E1].
  destruct (analyze_report_list default_globals steady_reports) as [bs2|e] eqn:E2;
    [|discriminate E2].
  exists bs1, bs2. split; [reflexivity|]. split; [reflexivity|].
  apply (analyze_junit_reports_logs spec_unpack spec_TEST_NAME spec_HEXSHA
           default_globals "logs" (cli.Args "logs" None None)
           [example_reports; steady_reports] [bs1; bs2]).
  - reflexivity.
  - discriminate.
  - repeat constructor; assumption.
Defined.

Lemma analyze_junit_reports_empty_file_witness :
  exists sl,
    Forall2 (fun file bs => analyze_report_list default_globals file = Ok bs)
      [example_reports] sl
    /\ analyze_junit_reports spec_unpack spec_TEST_NAME spec_HEXSHA default_globals "logs"
         ([example_reports] ++ [] :: [steady_reports])
       = (map (fun bs => log_benchmark_statistics bs "logs") sl, Raise IndexError).
Proof.
  apply (analyze_junit_reports_empty_file spec_unpack spec_TEST_NAME spec_HEXSHA
           default_globals "logs" [example_reports] [steady_reports]).
  repeat constructor; discriminate.
Defined.

Lemma example_analyzed :
  exists bs,
    Forall2 (fun file bs => analyze_report_list default_globals file = Ok bs)
      [example_reports] [bs]
    /\ BenchmarkStatistics.junit_statistics bs = adjacent_statistics example_reports.
Proof.
  destruct (analyze_report_list default_globals example_reports) as [bs|e] eqn:E;
    [|discriminate E].
  exists bs. split; [repeat constructor; exact E|].
  apply analyze_report_list_Ok_inv in E as (_ & _ & _ & _ & _ & _ & Hstats).
  exact Hstats.
Defined.

Lemma analyze_junit_reports_own_thresholds_witness :
  exists bs,
    let d := salience_record spec_unpack spec_TEST_NAME spec_HEXSHA "T"
               (JUnitStatistics.mk "c2" (95 # 10) ((95 # 10) / 5) ((95 # 10) - 5)) in
    (d ∈ entries (find_salient_commits spec_unpack spec_TEST_NAME spec_HEXSHA
                    default_globals [bs]) "c2" <->
     exists bs' cs, bs' ∈ [bs]
       /\ cs ∈ BenchmarkStatistics.junit_statistics bs'
       /\ JUnitStatistics.commit_id cs = "c2"
       /\ (BenchmarkStatistics.delta_threshold bs' < JUnitStatistics.runtime_delta cs
           \/ BenchmarkStatistics.speedup_threshold bs' < JUnitStatistics.speedup cs)
       /\ d = salience_record spec_unpack spec_TEST_NAME spec_HEXSHA
                (BenchmarkStatistics.test_name bs') cs).
Proof.
  destruct example_analyzed as (bs & Hbs & _).
  exists bs. intros d.
  apply (analyze_junit_reports_own_thresholds spec_unpack spec_TEST_NAME spec_HEXSHA
           default_globals [example_reports] [bs] "c2" d Hbs).
Defined.

Lemma analyze_junit_reports_keys_witness :
  exists file i a,
    file ∈ [example_reports] /\ file !! i = Some a /\ is_Some (file !! S i)
    /\ JUnitCommitReport.commit_id a = "c2".
Proof.
  destruct example_analyzed as (bs & Hbs & Hstats).
  apply (analyze_junit_reports_keys spec_unpack spec_TEST_NAME spec_HEXSHA
           default_globals [example_reports] [bs] "c2" Hbs).
  apply (proj2 (is_Some_lookup_entries _ "c2"
                  (nonempty_find_salient_commits _ _ _ _ _))).
  rewrite entries_find_salient_commits. cbn [map concat].
  unfold records_of. rewrite Hstats.
  vm_compute. discriminate.
Defined.

(** ** The command line *)

(** On numeric bindings the salience test of the command line model is the
    one above. *)
Lemma cli_is_salient_numbers (d s : Q) (cs : JUnitStatistics.t) :
  cli.is_salient (cli.Globals (cli.Number d) (cli.Number s)) cs
  = cli.Returns (is_salient (Globals d s) cs).
Proof.
  unfold cli.is_salient, is_salient, cli.gt, gt. cbn.
  destruct (d ?= JUnitStatistics.runtime_delta cs); reflexivity.
Qed.

(** A delta threshold given on the command line is bound as text: the
    salience test then raises [TypeError] for every statistic, whatever the
    text and whatever the other option. *)
Theorem cli_delta_threshold_type_error (a : cli.args) (text : string)
    (cs : JUnitStatistics.t) :
  cli.delta_threshold a = Some text ->
  cli.is_salient (cli.rebind a) cs = cli.TypeError.
Proof.
  intros H. unfold cli.rebind. rewrite H.
  destruct (cli.speedup_threshold a); reflexivity.
Qed.

Lemma cli_delta_threshold_type_error_witness :
  cli.is_salient (cli.rebind (cli.Args "logs" (Some "3") None))
    (JUnitStatistics.mk "c1" 10 (19 # 10) 5)
  = cli.TypeError.
Proof.
  apply (cli_delta_threshold_type_error (cli.Args "logs" (Some "3") None) "3").
  reflexivity.
Defined.

(** With only a speedup threshold on the command line, the salience test
    answers true when the delta is above the default 2 and raises [TypeError]
    otherwise: the speedup is then compared with a text.  With neither
    option it is the test under the default thresholds. *)
Theorem cli_speedup_threshold_only (a : cli.args) (cs : JUnitStatistics.t) :
  cli.delta_threshold a = None ->
  cli.is_salient (cli.rebind a) cs
  = match cli.speedup_threshold a with
    | Some _ => if gt (JUnitStatistics.runtime_delta cs) 2
                then cli.Returns true else cli.TypeError
    | None => cli.Returns (is_salient default_globals cs)
    end.
Proof.
  intros H. unfold cli.rebind. rewrite H.
  destruct (cli.speedup_threshold a) as [text|].
  - unfold cli.is_salient, cli.gt, gt. cbn.
    destruct (2 ?= JUnitStatistics.runtime_delta cs); reflexivity.
  - apply cli_is_salient_numbers.
Qed.

Lemma cli_speedup_threshold_only_witness :
  cli.is_salient (cli.rebind (cli.Args "logs" None (Some "1.5")))
    (JUnitStatistics.mk "c1" 10 (19 # 10) 1)
  = cli.TypeError
  /\ cli.is_salient (cli.rebind (cli.Args "logs" None (Some "1.5")))
       (JUnitStatistics.mk "c1" 10 (19 # 10) 5)
     = cli.Returns true.
Proof.
  split.
  - apply (cli_speedup_threshold_only (cli.Args "logs" None (Some "1.5"))). reflexivity.
  - apply (cli_speedup_threshold_only (cli.Args "logs" None (Some "1.5"))). reflexivity.
Defined.
